(** * git_toolbox: changelog, manifest and WIP gate over a git history

    A shallow embedding of [scripts/git_toolbox.py] and the properties of
    its three operations.

    Text is modelled as [string], the UTF-8 bytes of the Python text.  The
    Python string methods the script calls are given for that
    representation.  [str.upper] and [str.lower] follow Python on the ASCII
    letters and on every code point whose other case holds an ASCII
    character; [str.isspace] and [str.splitlines] follow it on the ASCII
    range.

    The script talks to the outside through [subprocess.check_output],
    [open]/[write], [print] and [sys.exit].  A run is a function of the
    answers git gives ([World]), each the output of the command as text, and
    yields the list of effects performed, in order, together with either a
    value or the exception that ended it.  Printing and writing take any
    text. *)

From Stdlib Require Import Ascii String ZArith Lia.
From stdpp Require Import gmap strings list fin_maps sorting.

#[local] Set Warnings "-clear-no-such-hyp".

(** ** Python string methods *)

Module Py.

Definition nl : string := String "010"%char "".

(** [str.isspace] on one character, ASCII range. *)
Definition isspace (c : ascii) : bool :=
  match c with
  | "009" | "010" | "011" | "012" | "013"
  | "028" | "029" | "030" | "031" | " " => true
  | _ => false
  end%char.

(** The characters at which [str.splitlines] breaks, ASCII range;
    a carriage return directly followed by a line feed is one break. *)
Definition islinebreak (c : ascii) : bool :=
  match c with
  | "010" | "011" | "012" | "013" | "028" | "029" | "030" => true
  | _ => false
  end%char.

Fixpoint lstrip (s : string) : string :=
  match s with
  | String c s' => if isspace c then lstrip s' else s
  | "" => ""
  end.

Fixpoint rstrip (s : string) : string :=
  match s with
  | String c s' =>
      match rstrip s' with
      | "" => if isspace c then "" else String c ""
      | r => String c r
      end
  | "" => ""
  end.

Definition strip (s : string) : string := rstrip (lstrip s).

(** [s.split(sep, maxsplit)] for a one-character separator: cut at the
    first [maxsplit] occurrences, the remainder is the last field. *)
Fixpoint split (sep : ascii) (maxsplit : nat) (s : string) : list string :=
  match s with
  | "" => [""]
  | String c s' =>
      match maxsplit with
      | O => [s]
      | S k =>
          if decide (c = sep) then "" :: split sep k s'
          else match split sep maxsplit s' with
               | fld :: flds => String c fld :: flds
               | [] => [String c ""]
               end
      end
  end.

(** The first whitespace-delimited word of [s] and what follows it. *)
Fixpoint word (s : string) : string * string :=
  match s with
  | "" => ("", "")
  | String c s' =>
      if isspace c then ("", s)
      else let '(w, rest) := word s' in (String c w, rest)
  end.

(** [s.split(maxsplit=1)]: split on runs of whitespace, at most once.
    Leading whitespace is dropped; the remainder keeps its tail. *)
Definition split_ws1 (s : string) : list string :=
  match lstrip s with
  | "" => []
  | s1 =>
      let '(w, rest) := word s1 in
      match lstrip rest with
      | "" => [w]
      | r => [w; r]
      end
  end.

Fixpoint startswith (s pre : string) : bool :=
  match pre, s with
  | "", _ => true
  | String p pre', String c s' => if decide (c = p) then startswith s' pre' else false
  | String _ _, "" => false
  end.

(** [needle in s] *)
Fixpoint contains (needle s : string) : bool :=
  startswith s needle ||
  match s with
  | "" => false
  | String _ s' => contains needle s'
  end.

(** The UTF-8 bytes of a code point, and of a sequence of code points. *)
Definition utf8 (cp : N) : string :=
  let byte (n : N) := ascii_of_N n in
  if (cp <? 0x80)%N then String (byte cp) ""
  else if (cp <? 0x800)%N then
    String (byte (0xC0 + cp / 0x40)%N)
      (String (byte (0x80 + cp mod 0x40)%N) "")
  else if (cp <? 0x10000)%N then
    String (byte (0xE0 + cp / 0x1000)%N)
      (String (byte (0x80 + (cp / 0x40) mod 0x40)%N)
         (String (byte (0x80 + cp mod 0x40)%N) ""))
  else
    String (byte (0xF0 + cp / 0x40000)%N)
      (String (byte (0x80 + (cp / 0x1000) mod 0x40)%N)
         (String (byte (0x80 + (cp / 0x40) mod 0x40)%N)
            (String (byte (0x80 + cp mod 0x40)%N) ""))).

Definition utf8_text (cps : list N) : string :=
  foldr (λ cp s, utf8 cp +:+ s) "" cps.

(** Case mapping of the ASCII letters. *)
Definition upper_char (c : ascii) : ascii :=
  let n := nat_of_ascii c in
  if (97 <=? n)%nat && (n <=? 122)%nat then ascii_of_nat (n - 32) else c.

Definition lower_char (c : ascii) : ascii :=
  let n := nat_of_ascii c in
  if (65 <=? n)%nat && (n <=? 90)%nat then ascii_of_nat (n + 32) else c.

(** The code points outside ASCII whose upper-case form holds an ASCII
    character, each with that form: sharp s, dotless i, long s, the
    letters whose capital is written as an ASCII capital and a mark, and
    the Latin ligatures. *)
Definition upper_forms : list (N * list N) :=
  [(0xDF, [0x53; 0x53]);
   (0x131, [0x49]);
   (0x149, [0x2BC; 0x4E]);
   (0x17F, [0x53]);
   (0x1F0, [0x4A; 0x30C]);
   (0x1E96, [0x48; 0x331]);
   (0x1E97, [0x54; 0x308]);
   (0x1E98, [0x57; 0x30A]);
   (0x1E99, [0x59; 0x30A]);
   (0x1E9A, [0x41; 0x2BE]);
   (0xFB00, [0x46; 0x46]);
   (0xFB01, [0x46; 0x49]);
   (0xFB02, [0x46; 0x4C]);
   (0xFB03, [0x46; 0x46; 0x49]);
   (0xFB04, [0x46; 0x46; 0x4C]);
   (0xFB05, [0x53; 0x54]);
   (0xFB06, [0x53; 0x54])]%N.

(** The code points outside ASCII whose lower-case form holds an ASCII
    character: capital I with dot above and the Kelvin sign. *)
Definition lower_forms : list (N * list N) :=
  [(0x130, [0x69; 0x307]);
   (0x212A, [0x6B])]%N.

(** The entry of [forms] whose code point the text begins with. *)
Definition form_at (forms : list (N * list N)) (s : string) : option (N * list N) :=
  List.find (λ e, startswith s (utf8 e.1)) forms.

(** Case mapping of a text: an ASCII character by [f], a code point of
    [forms] by its form, any other byte as it is.  [skip] counts the bytes
    still to pass over of a code point already replaced. *)
Fixpoint recase (f : ascii → ascii) (forms : list (N * list N))
    (skip : nat) (s : string) : string :=
  match s with
  | "" => ""
  | String c s' =>
      match skip with
      | S k => recase f forms k s'
      | O =>
          match form_at forms s with
          | Some (cp, form) =>
              utf8_text form +:+ recase f forms (String.length (utf8 cp) - 1) s'
          | None => String (f c) (recase f forms 0 s')
          end
      end
  end.

(** [s.upper()] and [s.lower()].  The code points outside ASCII that are not
    in the tables stay as they are; Python gives them a form that holds no
    ASCII character either, so the result has the same ASCII characters as
    Python's, with stretches of other characters at the same places.  The
    script only looks for an ASCII marker in the one and compares the other
    with ASCII names. *)
Definition upper (s : string) : string := recase upper_char upper_forms 0 s.
Definition lower (s : string) : string := recase lower_char lower_forms 0 s.

(** [s.splitlines()]: no empty last line after a final break. *)
Fixpoint splitlines (s : string) : list string :=
  match s with
  | "" => []
  | String c s' =>
      if islinebreak c then
        match c, s' with
        | "013"%char, String "010"%char _ => splitlines s'
        | _, _ => "" :: splitlines s'
        end
      else match splitlines s' with
           | l :: ls => String c l :: ls
           | [] => [String c ""]
           end
  end.

(** [sorted(l)] and [sorted(l, reverse=True)] on strings: Python compares
    strings by code point, which on UTF-8 text is the byte order of
    [String.le]. *)
Definition sorted (l : list string) : list string := merge_sort String.le l.
Definition sorted_reverse (l : list string) : list string :=
  merge_sort (flip String.le) l.

End Py.

(** ** Effects *)

Inductive exn : Type :=
| OSError (cmd : list string)
| CalledProcessError (status : Z) (cmd : list string)
| ValueError
| KeyError (key : string)
| SystemExit (code : Z).

Inductive event : Type :=
| Exec (cmd : list string)
| Open (path : string)
| Write (path text : string)
| Close (path : string)
| Print (text : string).

(** What running a command gives: it could not be started, or it ran and
    left an exit status and its standard output. *)
Inductive proc_result : Type :=
| NotStarted
| Exited (status : Z) (stdout : string).

Definition World : Type := list string → proc_result.

Definition M (A : Type) : Type := World → list event * (exn + A).

Definition ret {A} (a : A) : M A := λ _, ([], inr a).

Definition raise {A} (e : exn) : M A := λ _, ([], inl e).

Definition bind {A B} (m : M A) (k : A → M B) : M B := λ w,
  match m w with
  | (t, inl e) => (t, inl e)
  | (t, inr a) => let '(t', r) := k a w in (t ++ t', r)
  end.

#[global] Instance M_ret : MRet M := @ret.
#[global] Instance M_bind : MBind M := λ A B k m, bind m k.

Definition emit (e : event) : M unit := λ _, ([e], inr tt).

(** [subprocess.check_output(cmd, text=True)] *)
Definition check_output (cmd : list string) : M string := λ w,
  ([Exec cmd],
   match w cmd with
   | NotStarted => inl (OSError cmd)
   | Exited status out =>
       if decide (status = 0%Z) then inr out
       else inl (CalledProcessError status cmd)
   end).

Definition write (f text : string) : M unit := emit (Write f text).
Definition print (text : string) : M unit := emit (Print text).
Definition sys_exit {A} (code : Z) : M A := raise (SystemExit code).

(** [with open(path, "w") as f: body]: the file is truncated on entry and
    closed on the way out, also when [body] raises. *)
Definition with_open {A} (path : string) (body : string → M A) : M A := λ w,
  let '(t, r) := body path w in (Open path :: t ++ [Close path], r).

(** [for x in l: body x] *)
Fixpoint for_ {A} (l : list A) (body : A → M unit) : M unit :=
  match l with
  | [] => ret tt
  | x :: l' => body x ;; for_ l' body
  end.

(** A [for] loop that updates local variables [S]. *)
Fixpoint for_fold {A S} (l : list A) (body : S → A → M S) (s : S) : M S :=
  match l with
  | [] => ret s
  | x :: l' => s' ← body s x; for_fold l' body s'
  end.

(** Tuple unpacking of a list of fields. *)
Definition unpack2 (l : list string) : M (string * string) :=
  match l with
  | [a; b] => ret (a, b)
  | _ => raise ValueError
  end.

Definition unpack4 (l : list string) : M (string * string * string * string) :=
  match l with
  | [a; b; c; d] => ret (a, b, c, d)
  | _ => raise ValueError
  end.

(** [d[k]] on a plain dict. *)
Definition getitem (d : gmap string string) (k : string) : M string :=
  match d !! k with
  | Some v => ret v
  | None => raise (KeyError k)
  end.

(** [d[k].append(v)] and [d[k]] on a [defaultdict(list)]. *)
Definition dd_get {V} (d : gmap string (list V)) (k : string) : list V :=
  default [] (d !! k).
Definition dd_append {V} (k : string) (v : V) (d : gmap string (list V))
  : gmap string (list V) :=
  <[k := dd_get d k ++ [v]]> d.

(** [d.keys()]; the script only ever sorts it or puts it in a set, so the
    order of the listing is immaterial. *)
Definition keys {V} (d : gmap string V) : list string := (map_to_list d).*1.

(** The exit status of the interpreter. *)
Definition exit_status {A} (r : exn + A) : Z :=
  match r with
  | inr _ => 0
  | inl (SystemExit code) => code
  | inl _ => 1
  end.

(** The files on disk after a run. *)
Definition fs_step (fs : gmap string string) (e : event) : gmap string string :=
  match e with
  | Open path => <[path := ""]> fs
  | Write path text => <[path := default "" (fs !! path) +:+ text]> fs
  | Exec _ | Close _ | Print _ => fs
  end.

Definition fs_after (fs : gmap string string) (t : list event) : gmap string string :=
  foldl fs_step fs t.

Definition touches_file (e : event) : bool :=
  match e with
  | Open _ | Write _ _ | Close _ => true
  | Exec _ | Print _ => false
  end.

(** ** The script *)

Definition BRANCH : string := "main".
Definition RECENT_LIMIT : nat := 5.

Definition log_cmd : list string :=
  ["git"; "log"; BRANCH; "--pretty=format:" +:+ "%H|%ad|%an|%s"; "--date=short"].

Definition get_commits : M (list string) :=
  output ← check_output log_cmd;
  ret (Py.strip <$> Py.splitlines output).

Definition group_line (grouped : gmap string (list (string * string))) (line : string)
  : M (gmap string (list (string * string))) :=
  '(_, date, author, msg) ← unpack4 (Py.split "|" 3 line);
  ret (dd_append date (msg, author) grouped).

Definition summary_line (f line : string) : M unit :=
  '(_, date, author, msg) ← unpack4 (Py.split "|" 3 line);
  write f ("- " +:+ date +:+ " — " +:+ msg +:+ " — Author: " +:+ author +:+ Py.nl).

Definition history_section (f : string)
    (grouped : gmap string (list (string * string))) (date : string) : M unit :=
  write f ("### " +:+ date +:+ Py.nl +:+ Py.nl) ;;
  for_ (dd_get grouped date)
       (λ '(msg, author), write f ("- " +:+ msg +:+ " — " +:+ author +:+ Py.nl)) ;;
  write f Py.nl.

Definition build_changelog : M unit :=
  commits ← get_commits;
  with_open "CHANGELOG.md" (λ f,
    write f ("# CHANGELOG" +:+ Py.nl +:+ Py.nl) ;;
    grouped ← for_fold commits group_line ∅;
    write f ("## Summary (Last 5 Commits)" +:+ Py.nl +:+ Py.nl) ;;
    for_ (take RECENT_LIMIT commits) (summary_line f) ;;
    write f (Py.nl +:+ "## Full History" +:+ Py.nl +:+ Py.nl) ;;
    for_ (Py.sorted_reverse (keys grouped)) (history_section f grouped)) ;;
  print "✅ CHANGELOG.md updated.".

Definition check_wip_line (line : string) : M unit :=
  '(_, _, _, msg) ← unpack4 (Py.split "|" 3 line);
  if Py.contains "WIP" (Py.upper msg) then
    print ("❌ Push blocked due to WIP commit: " +:+ msg) ;;
    sys_exit 1
  else ret tt.

Definition check_wip : M unit :=
  commits ← get_commits;
  for_ commits check_wip_line ;;
  print "✅ No WIP commits found.".

(** The local variables of the parsing loop of [build_manifest]. *)
Record parse_state : Type := ParseState {
  current_commit : gmap string string;
  added : gmap string (list string);
  deleted : gmap string (list string);
  recent_changes : list string
}.

Definition initial_state : parse_state := ParseState ∅ ∅ ∅ [].

Definition dquote : string := String "034"%char "".

Definition manifest_line (st : parse_state) (line : string) : M parse_state :=
  if Py.contains "|" line then
    match Py.split "|" 2 (Py.strip line) with
    | [h; d; m] =>
        ret (ParseState {[ "hash" := h; "date" := d; "msg" := m ]}
                        (added st) (deleted st) (recent_changes st))
    | _ => ret st
    end
  else if Py.startswith line "A" || Py.startswith line "D" then
    '(status, path) ← unpack2 (Py.split_ws1 line);
    date ← getitem (current_commit st) "date";
    msg ← getitem (current_commit st) "msg";
    let entry := date +:+ " — " +:+ msg in
    if decide (status = "A") then
      ret (ParseState (current_commit st)
             (dd_append path entry (added st)) (deleted st)
             (recent_changes st ++
                [date +:+ " — Added " +:+ path +:+ " — " +:+ dquote +:+ msg +:+ dquote]))
    else if decide (status = "D") then
      ret (ParseState (current_commit st)
             (added st) (dd_append path entry (deleted st))
             (recent_changes st ++
                [date +:+ " — Deleted " +:+ path +:+ " — " +:+ dquote +:+ msg +:+ dquote]))
    else ret st
  else ret st.

Definition name_status_cmd : list string :=
  ["git"; "log"; BRANCH; "--name-status"; "--date=short"; "--pretty=format:%H|%ad|%s"].

Definition ls_tree_cmd : list string :=
  ["git"; "ls-tree"; "-r"; BRANCH; "--name-only"].

(** [if path in d: for entry in d[path]: f.write(label entry)] *)
Definition annotations (f label : string) (d : gmap string (list string))
    (path : string) : M unit :=
  match d !! path with
  | Some entries => for_ entries (λ entry, write f (label +:+ entry +:+ Py.nl))
  | None => ret tt
  end.

Definition current_file (f : string) (st : parse_state) (path : string) : M unit :=
  write f ("📄 " +:+ path +:+ Py.nl) ;;
  annotations f "  Added: " (added st) path ;;
  write f Py.nl.

Definition history_file (f : string) (st : parse_state) (path : string) : M unit :=
  write f ("📄 " +:+ path +:+ Py.nl) ;;
  annotations f "  Added: " (added st) path ;;
  annotations f "  Deleted: " (deleted st) path ;;
  write f Py.nl.

(** [set(l)] *)
Definition set_of (l : list string) : gset string := list_to_set l.

Definition all_paths (st : parse_state) : list string :=
  Py.sorted (elements (set_of (keys (added st) ++ keys (deleted st)))).

Definition build_manifest : M unit :=
  output ← check_output name_status_cmd;
  st ← for_fold (Py.splitlines output) manifest_line initial_state;
  with_open "MANIFEST.md" (λ f,
    write f ("# MANIFEST" +:+ Py.nl +:+ Py.nl) ;;
    write f ("## Current Files" +:+ Py.nl +:+ Py.nl) ;;
    listing ← check_output ls_tree_cmd;
    for_ (Py.sorted (Py.splitlines listing)) (current_file f st) ;;
    write f ("## Recent Changes (Last 5)" +:+ Py.nl +:+ Py.nl) ;;
    for_ (take RECENT_LIMIT (recent_changes st))
         (λ line, write f ("- " +:+ line +:+ Py.nl)) ;;
    write f Py.nl ;;
    write f ("## Full File History" +:+ Py.nl +:+ Py.nl) ;;
    for_ (all_paths st) (history_file f st)) ;;
  print "✅ MANIFEST.md updated.".

(** The [__main__] block; [argv] is [sys.argv], program name included. *)
Definition main (argv : list string) : M unit :=
  if decide (length argv ≠ 2) then
    print "Usage: python git_toolbox.py [manifest|changelog|check-wip]" ;;
    sys_exit 1
  else
    let action := Py.lower (default "" (argv !! 1)) in
    if decide (action = "manifest") then build_manifest
    else if decide (action = "changelog") then build_changelog
    else if decide (action = "check-wip") then check_wip
    else
      print "Invalid command. Use one of: manifest, changelog, check-wip" ;;
      sys_exit 1.

(** ** Vocabulary of the specification *)

(** A commit as the History Reader delivers it. *)
Record CommitRecord : Type := Commit {
  hash : string;
  date : string;
  author : string;
  subject : string
}.

(** The line [git log] prints for a commit under [%H|%ad|%an|%s]. *)
Definition log_line (c : CommitRecord) : string :=
  hash c +:+ "|" +:+ date c +:+ "|" +:+ author c +:+ "|" +:+ subject c.

Definition delimiter_free (s : string) : Prop := Py.contains "|" s = false.

(** The first three fields of a log line are the ones the delimiter bounds;
    the subject is whatever follows the third delimiter. *)
Definition delimited (c : CommitRecord) : Prop :=
  delimiter_free (hash c) ∧ delimiter_free (date c) ∧ delimiter_free (author c).

(** The marker in each of its spellings: every letter as a capital or as a
    small letter, where the small letters of [I] are [i] and the dotless
    [ı] (U+0131), which [str.upper] turns into [I] as well. *)
Definition dotless_i : string := Py.utf8 0x131.

Definition wip_spellings : list string :=
  w ← ["W"; "w"]; i ← ["I"; "i"; dotless_i]; p ← ["P"; "p"]; [w +:+ i +:+ p].

Definition mentions_wip (msg : string) : Prop :=
  ∃ pre mid post, msg = pre +:+ mid +:+ post ∧ mid ∈ wip_spellings.

Definition blocked_message (msg : string) : string :=
  "❌ Push blocked due to WIP commit: " +:+ msg.

(** The ways to write one character of a command name: as it is, a small
    letter also as its capital, and [k] also as the Kelvin sign (U+212A),
    which [str.lower] turns into [k]. *)
Definition kelvin_sign : string := Py.utf8 0x212A.

Definition written_as (c : ascii) : list string :=
  let n := nat_of_ascii c in
  String c "" ::
  (if (97 <=? n)%nat && (n <=? 122)%nat then [String (ascii_of_nat (n - 32)) ""] else []) ++
  (if decide (c = "k"%char) then [kelvin_sign] else []).

(** [arg] is [name] up to the case of its letters. *)
Fixpoint any_case (name arg : string) : Prop :=
  match name with
  | "" => arg = ""
  | String c name' =>
      ∃ t rest, arg = t +:+ rest ∧ t ∈ written_as c ∧ any_case name' rest
  end.

(** An argument that is none of the three command names. *)
Definition unrecognized (arg : string) : Prop :=
  ¬ any_case "manifest" arg ∧ ¬ any_case "changelog" arg ∧ ¬ any_case "check-wip" arg.

(** An effect that is the history query or console output. *)
Definition console_or_query (e : event) : Prop :=
  e = Exec log_cmd ∨ ∃ text, e = Print text.

(** The changelog document, piece by piece. *)
Definition changelog_head (f : string) : list event :=
  [Exec log_cmd; Open f;
   Write f ("# CHANGELOG" +:+ Py.nl +:+ Py.nl);
   Write f ("## Summary (Last 5 Commits)" +:+ Py.nl +:+ Py.nl)].

Definition summary_entry (f : string) (c : CommitRecord) : event :=
  Write f ("- " +:+ date c +:+ " — " +:+ subject c +:+ " — Author: " +:+ author c +:+ Py.nl).

Definition full_history_title (f : string) : event :=
  Write f (Py.nl +:+ "## Full History" +:+ Py.nl +:+ Py.nl).

Definition history_entry (f : string) (c : CommitRecord) : event :=
  Write f ("- " +:+ subject c +:+ " — " +:+ author c +:+ Py.nl).

(** One date subsection: its header, its entries, a blank line. *)
Definition date_section (f : string) (g : string * list CommitRecord) : list event :=
  Write f ("### " +:+ g.1 +:+ Py.nl +:+ Py.nl) :: (history_entry f <$> g.2) ++ [Write f Py.nl].

Definition changelog_tail (f : string) : list event :=
  [Close f; Print "✅ CHANGELOG.md updated."].

(** [a] sorts strictly after [b]. *)
Definition strictly_after (a b : string) : Prop := String.le b a ∧ a ≠ b.
Definition strictly_before (a b : string) : Prop := String.le a b ∧ a ≠ b.

(** The commits of one date, in the order received. *)
Definition on_date (d : string) (rs : list CommitRecord) : list CommitRecord :=
  filter (λ c, date c = d) rs.

(** File changes, as the extended log reports them. *)
Inductive change_status : Type := Added | Deleted.

#[global] Instance change_status_eq_dec : EqDecision change_status.
Proof. solve_decision. Defined.

Record FileChangeEvent : Type := Change {
  path : string;
  status : change_status;
  change_date : string;
  change_subject : string
}.

(** The line grammar of the extended log: a line holding the delimiter is
    a header when it has three fields and is passed over otherwise; a line
    without the delimiter that begins with [A] or [D] is a status line when a
    path follows the status word. *)
Inductive line_class : Type :=
| HeaderLine (d m : string)
| StatusLine (word path : string)
| BrokenLine
| OtherLine.

Definition classify (line : string) : line_class :=
  if Py.contains "|" line then
    match Py.split "|" 2 (Py.strip line) with
    | [_; d; m] => HeaderLine d m
    | _ => OtherLine
    end
  else if Py.startswith line "A" || Py.startswith line "D" then
    match Py.split_ws1 line with
    | [s; p] => StatusLine s p
    | _ => BrokenLine
    end
  else OtherLine.

Definition status_of (word : string) : option change_status :=
  if decide (word = "A") then Some Added
  else if decide (word = "D") then Some Deleted
  else None.

(** The events of a stream, each under the header last seen before it;
    [ctx] is the date and subject of that header. *)
Fixpoint events_from (ctx : option (string * string)) (lines : list string)
  : list FileChangeEvent :=
  match lines with
  | [] => []
  | l :: ls =>
      match classify l with
      | HeaderLine d m => events_from (Some (d, m)) ls
      | StatusLine s p =>
          match ctx, status_of s with
          | Some (d, m), Some st => Change p st d m :: events_from ctx ls
          | _, _ => events_from ctx ls
          end
      | BrokenLine | OtherLine => events_from ctx ls
      end
  end.

Definition events (lines : list string) : list FileChangeEvent :=
  events_from None lines.

(** A stream the parser gets through: every status line has its path and
    comes after some header. *)
Fixpoint well_formed_from (ctx : bool) (lines : list string) : bool :=
  match lines with
  | [] => true
  | l :: ls =>
      match classify l with
      | HeaderLine _ _ => well_formed_from true ls
      | StatusLine _ _ => ctx && well_formed_from ctx ls
      | BrokenLine => false
      | OtherLine => well_formed_from ctx ls
      end
  end.

Definition well_formed (lines : list string) : bool := well_formed_from false lines.

(** A status-prefixed file line: [A] or [D], whitespace, a path. *)
Definition whitespace (s : string) : Prop := Py.lstrip s = "".
Definition status_prefixed (line : string) : Prop :=
  ∃ s ws p, line = s +:+ ws +:+ p ∧ (s = "A" ∨ s = "D") ∧
            ws ≠ "" ∧ whitespace ws ∧ p ≠ "" ∧ Py.lstrip p = p.

(** A line that sets the current commit context. *)
Definition sets_context (line : string) : Prop :=
  ∃ d m, classify line = HeaderLine d m.

(** The annotation of an event and its line in the recent changes. *)
Definition entry_of (e : FileChangeEvent) : string :=
  change_date e +:+ " — " +:+ change_subject e.

Definition verb (st : change_status) : string :=
  match st with Added => "Added" | Deleted => "Deleted" end.

Definition recent_line (e : FileChangeEvent) : string :=
  change_date e +:+ " — " +:+ verb (status e) +:+ " " +:+ path e +:+ " — " +:+
  dquote +:+ change_subject e +:+ dquote.

(** The events of one kind on one path, in log order. *)
Definition changes (st : change_status) (p : string) (evs : list FileChangeEvent)
  : list FileChangeEvent :=
  filter (λ e, status e = st ∧ path e = p) evs.

Definition annotation (f : string) (st : change_status) (e : FileChangeEvent) : event :=
  Write f ("  " +:+ verb st +:+ ": " +:+ entry_of e +:+ Py.nl).

(** The block of one path in "Current Files" and in "Full File History". *)
Definition current_block (f : string) (evs : list FileChangeEvent) (p : string)
  : list event :=
  Write f ("📄 " +:+ p +:+ Py.nl) ::
  (annotation f Added <$> changes Added p evs) ++ [Write f Py.nl].

Definition history_block (f : string) (evs : list FileChangeEvent) (p : string)
  : list event :=
  Write f ("📄 " +:+ p +:+ Py.nl) ::
  (annotation f Added <$> changes Added p evs) ++
  (annotation f Deleted <$> changes Deleted p evs) ++ [Write f Py.nl].

(** The manifest document up to the title of its last section. *)
Definition manifest_front (f : string) (evs : list FileChangeEvent)
    (listing : list string) : list event :=
  [Exec name_status_cmd; Open f;
   Write f ("# MANIFEST" +:+ Py.nl +:+ Py.nl);
   Write f ("## Current Files" +:+ Py.nl +:+ Py.nl);
   Exec ls_tree_cmd] ++
  concat (current_block f evs <$> Py.sorted listing) ++
  [Write f ("## Recent Changes (Last 5)" +:+ Py.nl +:+ Py.nl)] ++
  ((λ e, Write f ("- " +:+ recent_line e +:+ Py.nl)) <$> take RECENT_LIMIT evs) ++
  [Write f Py.nl].

Definition file_history_title (f : string) : event :=
  Write f ("## Full File History" +:+ Py.nl +:+ Py.nl).

Definition manifest_tail (f : string) : list event :=
  [Close f; Print "✅ MANIFEST.md updated."].

(** ** The loops' variables and what they stand for *)

(** One round of the grouping loop of [build_changelog], and the
    dictionary the loop ends with. *)
Definition file_commit (g : gmap string (list (string * string))) (c : CommitRecord)
  : gmap string (list (string * string)) :=
  dd_append (date c) (subject c, author c) g.

Definition grouped_of (rs : list CommitRecord) : gmap string (list (string * string)) :=
  foldl file_commit ∅ rs.

(** The date subsections of the full history, first to last. *)
Definition date_groups (rs : list CommitRecord) : list (string * list CommitRecord) :=
  (λ d, (d, on_date d rs)) <$> Py.sorted_reverse (keys (grouped_of rs)).

(** The paths of the full file history, first to last. *)
Definition changed_paths (evs : list FileChangeEvent) : list string :=
  Py.sorted (elements (set_of (path <$> evs))).

(** What a [defaultdict(list)] holds for a key: nothing until the first
    [append]. *)
Definition held {V} (l : list V) : option (list V) :=
  match l with [] => None | _ => Some l end.

(** The loop's variables after the events [evs], under the header
    [ctx] (if any). *)
Definition represents (st : parse_state) (ctx : option (string * string))
    (evs : list FileChangeEvent) : Prop :=
  current_commit st !! "date" = fst <$> ctx ∧
  current_commit st !! "msg" = snd <$> ctx ∧
  (∀ p, added st !! p = held (entry_of <$> changes Added p evs)) ∧
  (∀ p, deleted st !! p = held (entry_of <$> changes Deleted p evs)) ∧
  recent_changes st = recent_line <$> evs.

(** The header in force after a stream. *)
Fixpoint context_after (ctx : option (string * string)) (lines : list string)
  : option (string * string) :=
  match lines with
  | [] => ctx
  | l :: ls =>
      match classify l with
      | HeaderLine d m => context_after (Some (d, m)) ls
      | _ => context_after ctx ls
      end
  end.

Definition has_header (ctx : option (string * string)) : bool :=
  match ctx with Some _ => true | None => false end.

(** The history the loop keeps for one kind of change. *)
Definition history_of (k : change_status) (st : parse_state) : gmap string (list string) :=
  match k with Added => added st | Deleted => deleted st end.

(** The lines the parsing loop looks into: those with the delimiter and
    those that begin with [A] or [D]. *)
Definition looked_into (line : string) : bool :=
  Py.contains "|" line || Py.startswith line "A" || Py.startswith line "D".

(** ** Effects on the disk *)

(** An effect that stays with the file [f] and the queries [cmds]. *)
Definition within (f : string) (cmds : list (list string)) (e : event) : Prop :=
  match e with
  | Exec cmd => cmd ∈ cmds
  | Open p | Write p _ | Close p => p = f
  | Print _ => True
  end.

(** An effect inside the [with] block of [f]: a write to [f] or one of the
    queries [cmds]. *)
Definition block_effect (f : string) (cmds : list (list string)) (e : event) : Prop :=
  (∃ text, e = Write f text) ∨ (∃ cmd, cmd ∈ cmds ∧ e = Exec cmd).

(** An effect that leaves [f] alone or adds to its end. *)
Definition appends_to (f : string) (e : event) : Prop :=
  match e with
  | Write p _ => p = f
  | Open _ => False
  | Exec _ | Close _ | Print _ => True
  end.

(** All that a run wrote, in order. *)
Fixpoint written (t : list event) : string :=
  match t with
  | [] => ""
  | Write _ text :: t' => text +:+ written t'
  | _ :: t' => written t'
  end.

(** A trace that leaves the disk alone, or that opens [f] after effects
    that leave the disk alone and from then on only adds to [f]. *)
Definition overwrites (f : string) (t : list event) : Prop :=
  Forall (λ e, touches_file e = false) t ∨
  ∃ pre tb, t = pre ++ Open f :: tb ∧
            Forall (λ e, touches_file e = false) pre ∧ Forall (appends_to f) tb.



(** ** Sample histories *)

Definition tab : string := String "009"%char "".

(** One line per element, as git prints them. *)
Definition unlines (ls : list string) : string :=
  foldr (λ l acc, l +:+ Py.nl +:+ acc) "" ls.

(** A world in which the three queries of the script answer [log],
    [name_status] and [tree]. *)
Definition world (log name_status tree : proc_result) : World := λ cmd,
  if decide (cmd = log_cmd) then log
  else if decide (cmd = name_status_cmd) then name_status
  else if decide (cmd = ls_tree_cmd) then tree
  else NotStarted.

Definition history_world (rs : list CommitRecord) : World :=
  world (Exited 0 (unlines (log_line <$> rs))) NotStarted NotStarted.

(** The history of the specification's example, newest first, and the
    same history without its unfinished commit. *)
Definition draft_history : list CommitRecord :=
  [Commit "a1f0" "2024-03-02" "ann" "fix bug";
   Commit "b2e1" "2024-03-02" "bob" "WIP: draft";
   Commit "c3d2" "2024-03-01" "ann" "release"].

Definition clean_history : list CommitRecord :=
  [Commit "a1f0" "2024-03-02" "ann" "fix bug";
   Commit "c3d2" "2024-03-01" "ann" "release"].

(** A history whose second subject has the marker inside a word, and one
    whose second subject spells it with the dotless [ı], after a subject
    with letters outside ASCII. *)
Definition wiped_history : list CommitRecord :=
  [Commit "a1f0" "2024-03-02" "ann" "fix bug";
   Commit "b2e1" "2024-03-02" "bob" "swiped the cache";
   Commit "c3d2" "2024-03-01" "ann" "WIP: draft"].

Definition dotless_history : list CommitRecord :=
  [Commit "a1f0" "2024-03-02" "ann" "añadir pruebas";
   Commit "b2e1" "2024-03-02" "bob" "wıp cleanup";
   Commit "c3d2" "2024-03-01" "ann" "release"].

(** Six commits over three days, newest first. *)
Definition busy_history : list CommitRecord :=
  [Commit "f6" "2024-03-03" "ann" "release 1.1";
   Commit "e5" "2024-03-03" "bob" "fix: a|b parsing";
   Commit "d4" "2024-03-02" "ann" "docs";
   Commit "c3" "2024-03-03" "cy" "late entry";
   Commit "b2" "2024-03-01" "bob" "tests";
   Commit "a1" "2024-03-01" "ann" "init"].

(** An extended log: three commits, one path added and later deleted, one
    only deleted, one modified, a subject holding the delimiter. *)
Definition sample_log : list string :=
  ["c3|2024-03-03|remove old";
   "D" +:+ tab +:+ "old.txt";
   "D" +:+ tab +:+ "legacy.cfg";
   "";
   "b2|2024-03-02|add a|b support";
   "A" +:+ tab +:+ "src/new.py";
   "M" +:+ tab +:+ "README.md";
   "";
   "a1|2024-03-01|init";
   "A" +:+ tab +:+ "old.txt";
   "A" +:+ tab +:+ "README.md"].

Definition manifest_world : World :=
  world NotStarted (Exited 0 (unlines sample_log))
        (Exited 0 (unlines ["src/new.py"; "README.md"])).

(** The log query answers, the tree listing exits with status 128. *)
Definition tree_listing_fails : World :=
  world (Exited 0 "")
        (Exited 0 (unlines ["c0ffee|2024-03-01|init"; "A" +:+ tab +:+ "a.txt"]))
        (Exited 128 "").

(** A stream that begins with a status line, its header lost. *)
Definition headless_world : World :=
  world NotStarted
        (Exited 0 (unlines [""; "A" +:+ tab +:+ "a.txt"; "c3|2024-03-03|later"]))
        (Exited 0 "").

(** The same with a path that holds the delimiter. *)
Definition delimiter_path_line : string := "A" +:+ tab +:+ "a|b".

Definition delimiter_path_world : World :=
  world NotStarted (Exited 0 (unlines [delimiter_path_line])) (Exited 0 "").

(** ** Lines of text *)

Fixpoint all_chars (P : ascii → bool) (s : string) : bool :=
  match s with
  | "" => true
  | String c s' => P c && all_chars P s'
  end.

(** A name of ASCII characters none of which is a capital. *)
Definition small_ascii (name : string) : bool :=
  all_chars (λ c, (nat_of_ascii c <? 128) &&
                  negb ((65 <=? nat_of_ascii c) && (nat_of_ascii c <=? 90))) name.

(** A line holds none of the characters [str.splitlines] breaks at. *)
Definition break_free (s : string) : Prop :=
  all_chars (λ c, negb (Py.islinebreak c)) s = true.

Definition no_leading_space (s : string) : Prop :=
  ∀ c t, s = String c t → Py.isspace c = false.

Definition no_trailing_space (s : string) : Prop :=
  ∀ t c, s = t +:+ String c "" → Py.isspace c = false.

(** The code points outside ASCII at which [str.strip] and
    [str.splitlines] act: the white space of Unicode, of which U+0085,
    U+2028 and U+2029 are line breaks too. *)
Definition wide_spaces : list N :=
  [0x85; 0xA0; 0x1680; 0x2000; 0x2001; 0x2002; 0x2003; 0x2004; 0x2005;
   0x2006; 0x2007; 0x2008; 0x2009; 0x200A; 0x2028; 0x2029; 0x202F; 0x205F;
   0x3000]%N.

(** A line whose white space and line breaks, if any, are ASCII. *)
Definition ascii_spaced (s : string) : Prop :=
  Forall (λ cp, Py.contains (Py.utf8 cp) s = false) wide_spaces.

(** Lines as git prints them under [--pretty=format:]: a line feed
    between two lines, none after the last. *)
Fixpoint join_lines (ls : list string) : string :=
  match ls with
  | [] => ""
  | l :: ls' =>
      match ls' with
      | [] => l
      | _ :: _ => l +:+ Py.nl +:+ join_lines ls'
      end
  end.

(** A log whose lines carry stray whitespace and mixed line ends. *)
Definition ragged_world : World :=
  world (Exited 0 ("  a1f0|2024-03-02|ann|fix bug  " +:+ String "013"%char Py.nl +:+
                   tab +:+ "c3d2|2024-03-01|ann|release" +:+ Py.nl))
        NotStarted NotStarted.

(** Git cannot be started at all. *)
Definition no_git : World := world NotStarted NotStarted NotStarted.

(** A log whose second line has lost its subject field. *)
Definition truncated_log_world : World :=
  world (Exited 0 (join_lines ["a1f0|2024-03-02|ann|fix bug";
                               "b2e1|2024-03-02|bob";
                               "c3d2|2024-03-01|ann|WIP: later"]))
        NotStarted NotStarted.

(** A stream with an [A] line that has no path. *)
Definition pathless_world : World :=
  world NotStarted (Exited 0 (unlines ["c3|2024-03-03|later"; "A"]))
        (Exited 0 "").

(** ** Running the monad *)

Section run.
Context {A B : Type}.

Lemma bind_run (m : M A) (k : A → M B) (w : World) :
  (m ≫= k) w =
    match (m w).2 with
    | inl e => ((m w).1, inl e)
    | inr a => ((m w).1 ++ (k a w).1, (k a w).2)
    end.
Proof.
  unfold mbind, M_bind, bind.
  destruct (m w) as [t [e|a]]; simpl; [done|].
  by destruct (k a w).
Qed.

Lemma bind_ok (m : M A) (k : A → M B) w t a :
  m w = (t, inr a) → (m ≫= k) w = (t ++ (k a w).1, (k a w).2).
Proof. intros Hm. by rewrite bind_run, Hm. Qed.

Lemma bind_raise (m : M A) (k : A → M B) w t e :
  m w = (t, inl e) → (m ≫= k) w = (t, inl e).
Proof. intros Hm. by rewrite bind_run, Hm. Qed.

(** Every effect of [m ≫= k] is one of [m] or one of [k]. *)
Lemma bind_trace_Forall (P : event → Prop) (m : M A) (k : A → M B) w :
  Forall P (m w).1 → (∀ a, Forall P (k a w).1) → Forall P ((m ≫= k) w).1.
Proof.
  intros Hm Hk. rewrite bind_run.
  destruct (m w).2; simpl; [done|].
  apply Forall_app; auto.
Qed.
End run.

Lemma with_open_run {A} path (body : string → M A) w :
  with_open path body w =
    (Open path :: (body path w).1 ++ [Close path], (body path w).2).
Proof. unfold with_open. by destruct (body path w). Qed.

Section loops.
Context {A : Type}.

Lemma for__trace_Forall (P : event → Prop) (l : list A) body w :
  (∀ x, Forall P (body x w).1) → Forall P (for_ l body w).1.
Proof.
  intros Hbody. induction l as [|x l IH]; simpl; [constructor|].
  apply bind_trace_Forall; auto.
Qed.

(** A loop whose body never raises performs the effects of its rounds
    in order. *)
Lemma for__ok (l : list A) body (t : A → list event) w :
  (∀ x, x ∈ l → body x w = (t x, inr tt)) →
  for_ l body w = (concat (t <$> l), inr tt).
Proof.
  induction l as [|x l IH]; intros Hbody; simpl; [done|].
  rewrite (bind_ok _ _ w (t x) tt) by (apply Hbody; left).
  rewrite IH by (intros; apply Hbody; by right). done.
Qed.

(** A loop stops at the first round that raises. *)
Lemma for__raise (pre post : list A) x body (t : A → list event) tx e w :
  (∀ y, y ∈ pre → body y w = (t y, inr tt)) →
  body x w = (tx, inl e) →
  for_ (pre ++ x :: post) body w = (concat (t <$> pre) ++ tx, inl e).
Proof.
  induction pre as [|y pre IH]; intros Hpre Hx; simpl.
  - by rewrite (bind_raise _ _ w tx e).
  - rewrite (bind_ok _ _ w (t y) tt) by (apply Hpre; left).
    rewrite IH by (try done; intros; apply Hpre; by right).
    simpl. by rewrite (assoc_L (++)).
Qed.

Lemma for__fmap {C} (g : C → A) (l : list C) body w :
  for_ (g <$> l) body w = for_ l (λ x, body (g x)) w.
Proof.
  induction l as [|x l IH]; [done|]. csimpl.
  rewrite !bind_run. destruct (body (g x) w) as [t [e|[]]]; simpl; [done|].
  by rewrite IH.
Qed.

Lemma for_fold_app {S} (l1 l2 : list A) (body : S → A → M S) s w :
  for_fold (l1 ++ l2) body s w = (for_fold l1 body s ≫= for_fold l2 body) w.
Proof.
  revert s. induction l1 as [|x l1 IH]; intros s; simpl.
  - rewrite bind_run. unfold ret; simpl. by destruct (for_fold l2 body s w).
  - rewrite !bind_run. destruct (body s x w) as [t [e|s']]; simpl; [done|].
    rewrite IH, !bind_run.
    destruct (for_fold l1 body s' w) as [t' [e|s'']]; simpl; [done|].
    by rewrite (assoc_L (++)).
Qed.
End loops.

(** Only [open] and [write] change what is on disk. *)
Lemma fs_after_untouched fs t :
  Forall (λ e, touches_file e = false) t → fs_after fs t = fs.
Proof.
  unfold fs_after. induction 1 as [|e t He _ IH]; simpl; [done|].
  by destruct e.
Qed.

Lemma unpack4_trace l w : (unpack4 l w).1 = [].
Proof. by destruct l as [|? [|? [|? [|? [|]]]]]. Qed.

(** ** The WIP gate leaves the disk alone *)

Lemma check_wip_line_trace line w : Forall console_or_query (check_wip_line line w).1.
Proof.
  unfold check_wip_line. apply bind_trace_Forall.
  - rewrite unpack4_trace. constructor.
  - intros [[[? ?] ?] msg]. destruct (Py.contains _ _); [|constructor].
    apply bind_trace_Forall; [|intros; constructor].
    apply Forall_singleton. right. eauto.
Qed.

(** C9: in every world, whatever the commits and whether or not a marker
    is found, a run of [check_wip] performs only the history query and
    console output; it opens, writes and closes no file, so every file on
    disk is as it was. *)
Theorem check_wip_writes_nothing (w : World) :
  Forall console_or_query (check_wip w).1 ∧
  Forall (λ e, touches_file e = false) (check_wip w).1 ∧
  ∀ fs, fs_after fs (check_wip w).1 = fs.
Proof.
  assert (Forall console_or_query (check_wip w).1) as Hall.
  { unfold check_wip. apply bind_trace_Forall.
    - unfold get_commits. apply bind_trace_Forall.
      + apply Forall_singleton. by left.
      + intros; constructor.
    - intros commits. apply bind_trace_Forall.
      + apply for__trace_Forall. intros line. apply check_wip_line_trace.
      + intros _. apply Forall_singleton. right. eauto. }
  assert (Forall (λ e, touches_file e = false) (check_wip w).1) as Hno.
  { eapply Forall_impl; [exact Hall|]. by intros e [->|[text ->]]. }
  split_and!; [done..|]. intros fs. by apply fs_after_untouched.
Qed.

Lemma bind_ret_nil {A B} (m : M A) (k : A → M B) w a :
  m w = ([], inr a) → (m ≫= k) w = k a w.
Proof. intros Hm. rewrite (bind_ok _ _ _ _ _ Hm). simpl. by destruct (k a w). Qed.

(** ** Lines with the delimiter that are no header *)

(** C10: a line of the extended log that holds the delimiter but does not
    split into three fields is passed over by the parsing loop: the step
    raises nothing, performs no effect and returns the loop's variables
    unchanged (context, both histories, recent changes), so the loop gives
    the same result as on the stream without that line, and the line
    contributes no event. *)
Theorem undersized_header_skipped (line : string) (w : World) :
  Py.contains "|" line = true →
  length (Py.split "|" 2 (Py.strip line)) ≠ 3 →
  (∀ st, manifest_line st line w = ([], inr st)) ∧
  (∀ pre post st,
     for_fold (pre ++ line :: post) manifest_line st w =
     for_fold (pre ++ post) manifest_line st w) ∧
  (∀ ctx pre post,
     events_from ctx (pre ++ line :: post) = events_from ctx (pre ++ post)).
Proof.
  intros Hbar Hlen.
  assert (∀ st, manifest_line st line w = ([], inr st)) as Hstep.
  { intros st. unfold manifest_line. rewrite Hbar.
    by destruct (Py.split "|" 2 (Py.strip line)) as [|? [|? [|? [|]]]]. }
  assert (classify line = OtherLine) as Hclass.
  { unfold classify. rewrite Hbar.
    by destruct (Py.split "|" 2 (Py.strip line)) as [|? [|? [|? [|]]]]. }
  split_and!; [done| |].
  - induction pre as [|l pre IH]; intros post st; simpl.
    + by rewrite (bind_ret_nil _ _ _ _ (Hstep st)).
    + rewrite !bind_run. destruct (manifest_line st l w) as [t [e|st']]; simpl; [done|].
      by rewrite IH.
  - intros ctx pre. revert ctx.
    induction pre as [|l pre IH]; intros ctx post; simpl.
    + by rewrite Hclass.
    + destruct (classify l) as [d m|s p| |]; [auto| |auto..].
      destruct ctx as [[d m]|], (status_of s); simpl; by rewrite ?IH.
Qed.

Lemma undersized_header_skipped_witness :
  for_fold ["c0ffee|2024-03-01|init"; "c0ffee|2024-03-01"; "A" +:+ tab +:+ "a.txt"]
           manifest_line initial_state (world NotStarted NotStarted NotStarted) =
  for_fold ["c0ffee|2024-03-01|init"; "A" +:+ tab +:+ "a.txt"]
           manifest_line initial_state (world NotStarted NotStarted NotStarted).
Proof.
  apply (undersized_header_skipped "c0ffee|2024-03-01"
           (world NotStarted NotStarted NotStarted) eq_refl
           ltac:(vm_compute; lia)
         : _ ∧ _ ∧ _).
Defined.

(** ** Strings *)

Lemma app_String c s t : String c s +:+ t = String c (s +:+ t).
Proof. done. Qed.

Lemma app_empty_l t : "" +:+ t = t.
Proof. done. Qed.

Lemma startswith_empty s : Py.startswith s "" = true.
Proof. by destruct s. Qed.

Lemma startswith_iff s pre :
  Py.startswith s pre = true ↔ ∃ post, s = pre +:+ post.
Proof.
  revert s. induction pre as [|p pre IH]; intros s.
  - destruct s; simpl; split; eauto.
  - destruct s as [|c s]; simpl; [split; [done|by intros [? ?]]|].
    destruct (decide (c = p)) as [->|Hne].
    + rewrite IH. split; intros [post Hpost]; exists post.
      * by rewrite app_String, Hpost.
      * rewrite app_String in Hpost. by simplify_eq.
    + split; [done|]. intros [post Hpost]. rewrite app_String in Hpost.
      by simplify_eq.
Qed.

Lemma contains_empty needle :
  Py.contains needle "" = Py.startswith "" needle || false.
Proof. done. Qed.

Lemma contains_String needle c s :
  Py.contains needle (String c s) =
    Py.startswith (String c s) needle || Py.contains needle s.
Proof. done. Qed.

Lemma contains_iff needle s :
  Py.contains needle s = true ↔ ∃ pre post, s = pre +:+ needle +:+ post.
Proof.
  induction s as [|c s IH]; [rewrite contains_empty|rewrite contains_String].
  - rewrite orb_false_r, startswith_iff. split.
    + intros [post ->]. by exists "", post.
    + intros ([|] & post & Hs); [eauto|by rewrite app_String in Hs].
  - rewrite orb_true_iff, IH, startswith_iff. split.
    + intros [[post Hs]|(pre & post & ->)].
      * by exists "", post.
      * by exists (String c pre), post.
    + intros ([|c' pre] & post & Hs).
      * left. eauto.
      * right. rewrite app_String in Hs. simplify_eq. eauto.
Qed.

Lemma delimiter_free_cons c s :
  delimiter_free (String c s) ↔ c ≠ "|"%char ∧ delimiter_free s.
Proof.
  unfold delimiter_free. simpl.
  destruct (decide (c = "|"%char)) as [->|Hne]; simpl.
  - destruct s; simpl; (split; [done|]); by intros [? _].
  - split; [done|]. by intros [_ ?].
Qed.

Lemma split_zero sep s : Py.split sep 0 s = [s].
Proof. by destruct s. Qed.

(** A delimiter-free field followed by the delimiter is cut off whole. *)
Lemma split_field fld rest k :
  delimiter_free fld →
  Py.split "|" (S k) (fld +:+ "|" +:+ rest) = fld :: Py.split "|" k rest.
Proof.
  induction fld as [|c fld IH]; intros Hfree.
  - rewrite app_empty_l, app_String. simpl. by rewrite app_empty_l.
  - apply delimiter_free_cons in Hfree as [Hc Hfree].
    rewrite app_String. simpl. rewrite decide_False by done.
    by rewrite IH.
Qed.

Lemma split_length sep k s : length (Py.split sep k s) ≤ S k.
Proof.
  revert k. induction s as [|c s IH]; intros k; simpl; [lia|].
  destruct k as [|k]; simpl; [lia|].
  destruct (decide (c = sep)); simpl.
  - specialize (IH k). lia.
  - specialize (IH (S k)). destruct (Py.split sep (S k) s); simpl in *; lia.
Qed.

Lemma split_log_line c :
  delimited c →
  Py.split "|" 3 (log_line c) = [hash c; date c; author c; subject c].
Proof.
  intros (Hh & Hd & Ha). unfold log_line.
  by rewrite !split_field, split_zero.
Qed.

Lemma append_empty_r s : s +:+ "" = s.
Proof. induction s as [|c s IH]; [done|]. by rewrite app_String, IH. Qed.

Lemma append_assoc s t u : (s +:+ t) +:+ u = s +:+ t +:+ u.
Proof. induction s as [|c s IH]; [done|]. by rewrite !app_String, IH. Qed.

Lemma length_app s t : String.length (s +:+ t) = String.length s + String.length t.
Proof. induction s as [|c s IH]; [done|]. rewrite app_String. simpl. by rewrite IH. Qed.

Lemma startswith_cons c s p pre :
  Py.startswith (String c s) (String p pre) =
    if decide (c = p) then Py.startswith s pre else false.
Proof. done. Qed.

(** ** Case mapping *)

Lemma all_chars_String P c s : all_chars P (String c s) = P c && all_chars P s.
Proof. done. Qed.

Lemma utf8_nonempty cp : ∃ c r, Py.utf8 cp = String c r.
Proof. unfold Py.utf8. repeat case_match; eauto. Qed.

Section recase.
Context (f : ascii → ascii) (forms : list (N * list N)).
Context (Hwide : Forall (λ e, all_chars (λ c, 128 <=? nat_of_ascii c) (Py.utf8 e.1) = true)
                        forms).

Lemma recase_skip a s :
  Py.recase f forms (String.length a) (a +:+ s) = Py.recase f forms 0 s.
Proof. induction a as [|c a IH]; [done|]. by rewrite app_String. Qed.

(** A text is empty, or begins with a byte that is mapped on its own, or
    begins with a code point of the table. *)
Lemma recase_cases s :
  s = "" ∨
  (∃ c s', s = String c s' ∧ Py.form_at forms s = None ∧
           Py.recase f forms 0 s = String (f c) (Py.recase f forms 0 s')) ∨
  (∃ cp form rest, (cp, form) ∈ forms ∧ s = Py.utf8 cp +:+ rest ∧
                   String.length rest < String.length s ∧
                   Py.recase f forms 0 s = Py.utf8_text form +:+ Py.recase f forms 0 rest).
Proof.
  destruct s as [|c s]; [by left|right].
  destruct (Py.form_at forms (String c s)) as [[cp form]|] eqn:Hform.
  - right. exists cp, form.
    pose proof Hform as [Hin Hsw]%find_some.
    apply startswith_iff in Hsw as [rest Hrest]. exists rest.
    destruct (utf8_nonempty cp) as (c0 & r & Hu). simpl in Hrest, Hu.
    split_and!; [by apply list_elem_of_In|done| |].
    + rewrite Hrest, length_app, Hu. simpl. lia.
    + simpl. rewrite Hform. f_equal.
      rewrite Hu, app_String in Hrest. injection Hrest as -> ->.
      rewrite Hu. simpl. rewrite Nat.sub_0_r. apply recase_skip.
  - left. exists c, s. split_and!; [done..|]. simpl. by rewrite Hform.
Qed.

Lemma form_at_ascii c s :
  nat_of_ascii c < 128 → Py.form_at forms (String c s) = None.
Proof.
  intros Hc. unfold Py.form_at.
  destruct (find _ forms) as [[cp form]|] eqn:Hfind; [|done].
  apply find_some in Hfind as [Hin%list_elem_of_In Hsw].
  rewrite Forall_forall in Hwide. apply Hwide in Hin.
  change (Py.utf8 (cp, form).1) with (Py.utf8 cp) in Hin, Hsw.
  destruct (utf8_nonempty cp) as (c0 & r & Hu). rewrite Hu in Hin, Hsw.
  rewrite all_chars_String in Hin. apply andb_true_iff in Hin as [Hc0%Nat.leb_le _].
  rewrite startswith_cons in Hsw. case_decide; [|done]. subst. lia.
Qed.

Lemma recase_ascii c s :
  nat_of_ascii c < 128 →
  Py.recase f forms 0 (String c s) = String (f c) (Py.recase f forms 0 s).
Proof. intros Hc. simpl. by rewrite form_at_ascii. Qed.

Lemma recase_form cp form rest :
  Py.form_at forms (Py.utf8 cp +:+ rest) = Some (cp, form) →
  Py.recase f forms 0 (Py.utf8 cp +:+ rest) =
    Py.utf8_text form +:+ Py.recase f forms 0 rest.
Proof.
  destruct (utf8_nonempty cp) as (c & r & Hu). rewrite Hu, app_String.
  intros Hform. cbn [Py.recase]. rewrite Hform, Hu. f_equal.
  cbn [String.length]. rewrite Nat.sub_1_r. apply recase_skip.
Qed.

(** A code point of the table that begins a text lies before the first
    ASCII character of that text. *)
Lemma form_before_ascii cp form rest pre a t :
  (cp, form) ∈ forms → nat_of_ascii a < 128 →
  Py.utf8 cp +:+ rest = pre +:+ String a t →
  ∃ pre', pre = Py.utf8 cp +:+ pre' ∧ rest = pre' +:+ String a t.
Proof.
  intros Hin Ha. rewrite Forall_forall in Hwide. apply Hwide in Hin.
  change (Py.utf8 (cp, form).1) with (Py.utf8 cp) in Hin.
  revert pre Hin. generalize (Py.utf8 cp) as src.
  induction src as [|b src IH]; intros pre Hsrc Heq; [by exists pre|].
  rewrite all_chars_String in Hsrc. apply andb_true_iff in Hsrc as [Hb%Nat.leb_le Hsrc].
  rewrite app_String in Heq. destruct pre as [|c pre].
  - rewrite app_empty_l in Heq. injection Heq as -> _. lia.
  - rewrite app_String in Heq. injection Heq as -> Heq.
    destruct (IH pre Hsrc Heq) as (pre' & -> & ->). by exists pre'.
Qed.
End recase.

Lemma upper_forms_wide :
  Forall (λ e, all_chars (λ c, 128 <=? nat_of_ascii c) (Py.utf8 e.1) = true) Py.upper_forms.
Proof. repeat constructor. Qed.

Lemma lower_forms_wide :
  Forall (λ e, all_chars (λ c, 128 <=? nat_of_ascii c) (Py.utf8 e.1) = true) Py.lower_forms.
Proof. repeat constructor. Qed.

Lemma upper_char_W c : Py.upper_char c = "W"%char → c = "W"%char ∨ c = "w"%char.
Proof. destruct c as [[] [] [] [] [] [] [] []]; vm_compute; intros; try discriminate; auto. Qed.

Lemma upper_char_I c : Py.upper_char c = "I"%char → c = "I"%char ∨ c = "i"%char.
Proof. destruct c as [[] [] [] [] [] [] [] []]; vm_compute; intros; try discriminate; auto. Qed.

Lemma upper_char_P c : Py.upper_char c = "P"%char → c = "P"%char ∨ c = "p"%char.
Proof. destruct c as [[] [] [] [] [] [] [] []]; vm_compute; intros; try discriminate; auto. Qed.

(** The forms of the table and the marker: no form holds the beginning of
    the marker, none begins with [P], and the only one that begins with
    [I] is that of the dotless [ı]. *)
Lemma upper_form_marker cp form X :
  (cp, form) ∈ Py.upper_forms →
  Py.contains "WIP" (Py.utf8_text form +:+ X) = Py.contains "WIP" X.
Proof.
  unfold Py.upper_forms. rewrite !elem_of_cons, elem_of_nil.
  intros H. destruct_or!; simplify_eq; reflexivity.
Qed.

Lemma upper_form_P cp form X :
  (cp, form) ∈ Py.upper_forms → Py.startswith (Py.utf8_text form +:+ X) "P" = false.
Proof.
  unfold Py.upper_forms. rewrite !elem_of_cons, elem_of_nil.
  intros H. destruct_or!; simplify_eq; reflexivity.
Qed.

Lemma upper_form_IP cp form X :
  (cp, form) ∈ Py.upper_forms →
  Py.startswith (Py.utf8_text form +:+ X) "IP" = true →
  Py.utf8 cp = dotless_i ∧ Py.startswith X "P" = true.
Proof.
  unfold Py.upper_forms. rewrite !elem_of_cons, elem_of_nil.
  intros H HIP. destruct_or!; simplify_eq; first [by vm_compute in HIP|by split].
Qed.

Lemma upper_cases s :
  s = "" ∨
  (∃ c s', s = String c s' ∧ Py.upper s = String (Py.upper_char c) (Py.upper s')) ∨
  (∃ cp form rest, (cp, form) ∈ Py.upper_forms ∧ s = Py.utf8 cp +:+ rest ∧
                   String.length rest < String.length s ∧
                   Py.upper s = Py.utf8_text form +:+ Py.upper rest).
Proof.
  destruct (recase_cases Py.upper_char Py.upper_forms s)
    as [->|[(c & s' & -> & _ & Heq)|(cp & form & rest & ? & ? & ? & ?)]];
    [by left|right; left; eauto|right; right]. by exists cp, form, rest.
Qed.

Lemma upper_starts_P t :
  Py.startswith (Py.upper t) "P" = true →
  ∃ p post, t = String p post ∧ (p = "P"%char ∨ p = "p"%char).
Proof.
  destruct (upper_cases t)
    as [->|[(c & s' & -> & Heq)|(cp & form & rest & Hin & -> & _ & Heq)]];
    rewrite ?Heq; [done| |by rewrite (upper_form_P cp)].
  rewrite startswith_cons. case_decide as Hc; [|done]. intros _.
  apply upper_char_P in Hc. eauto.
Qed.

Lemma upper_starts_IP t :
  Py.startswith (Py.upper t) "IP" = true →
  ∃ i p post, t = i +:+ String p post ∧ i ∈ ["I"; "i"; dotless_i] ∧
              (p = "P"%char ∨ p = "p"%char).
Proof.
  destruct (upper_cases t)
    as [->|[(c & s' & -> & Heq)|(cp & form & rest & Hin & -> & _ & Heq)]];
    rewrite ?Heq; [done| |].
  - rewrite startswith_cons. case_decide as Hc; [|done].
    intros (p & post & -> & Hp)%upper_starts_P.
    exists (String c ""), p, post. split_and!; [done| |done].
    apply upper_char_I in Hc as [-> | ->]; set_solver.
  - intros HIP. destruct (upper_form_IP cp form _ Hin HIP) as [-> HP].
    apply upper_starts_P in HP as (p & post & -> & Hp).
    exists dotless_i, p, post. split_and!; [done| |done]. set_solver.
Qed.

Lemma wip_spellings_list :
  wip_spellings =
    ["WIP"; "WIp"; "WiP"; "Wip"; "WıP"; "Wıp"; "wIP"; "wIp"; "wiP"; "wip"; "wıP"; "wıp"].
Proof. reflexivity. Qed.

Lemma wip_spelling w i p :
  w = "W"%char ∨ w = "w"%char → i ∈ ["I"; "i"; dotless_i] → p = "P"%char ∨ p = "p"%char →
  String w "" +:+ i +:+ String p "" ∈ wip_spellings.
Proof.
  rewrite wip_spellings_list, !elem_of_cons, elem_of_nil.
  intros Hw Hi Hp. destruct_or!; simplify_eq; set_solver.
Qed.

Lemma mentions_wip_cons c msg : mentions_wip msg → mentions_wip (String c msg).
Proof. intros (pre & mid & post & -> & Hmid). by exists (String c pre), mid, post. Qed.

Lemma mentions_wip_app s msg : mentions_wip msg → mentions_wip (s +:+ msg).
Proof.
  intros (pre & mid & post & -> & Hmid). exists (s +:+ pre), mid, post.
  by rewrite append_assoc.
Qed.

Lemma upper_marker msg :
  Py.contains "WIP" (Py.upper msg) = true → mentions_wip msg.
Proof.
  remember (String.length msg) as n eqn:Hn. revert msg Hn.
  induction n as [n IH] using lt_wf_ind. intros msg -> Hup.
  destruct (upper_cases msg)
    as [->|[(c & s' & -> & Heq)|(cp & form & rest & Hin & -> & Hlen & Heq)]];
    rewrite ?Heq in Hup; [done| |].
  - rewrite contains_String in Hup. apply orb_true_iff in Hup as [Hup|Hup].
    + rewrite startswith_cons in Hup. case_decide as Hc; [|done].
      apply upper_char_W in Hc.
      apply upper_starts_IP in Hup as (i & p & post & -> & Hi & Hp).
      exists "", (String c "" +:+ i +:+ String p ""), post. split.
      * rewrite app_empty_l, !app_String, app_empty_l. f_equal.
        by rewrite append_assoc, app_String, app_empty_l.
      * by apply wip_spelling.
    + apply mentions_wip_cons. eapply IH; [|done..]. simpl. lia.
  - rewrite (upper_form_marker cp) in Hup by done.
    apply mentions_wip_app. by eapply IH.
Qed.

Lemma wip_spelling_inv mid :
  mid ∈ wip_spellings →
  ∃ w i p, mid = String w "" +:+ i +:+ String p "" ∧
           (w = "W"%char ∨ w = "w"%char) ∧ i ∈ ["I"; "i"; dotless_i] ∧
           (p = "P"%char ∨ p = "p"%char).
Proof.
  rewrite wip_spellings_list, !elem_of_cons, elem_of_nil. intros H.
  destruct_or!; subst mid;
    [exists "W"%char, "I", "P"%char|exists "W"%char, "I", "p"%char
    |exists "W"%char, "i", "P"%char|exists "W"%char, "i", "p"%char
    |exists "W"%char, dotless_i, "P"%char|exists "W"%char, dotless_i, "p"%char
    |exists "w"%char, "I", "P"%char|exists "w"%char, "I", "p"%char
    |exists "w"%char, "i", "P"%char|exists "w"%char, "i", "p"%char
    |exists "w"%char, dotless_i, "P"%char|exists "w"%char, dotless_i, "p"%char];
    (split_and!; [reflexivity|auto|set_solver|auto]).
Qed.

Lemma spelling_head mid :
  mid ∈ wip_spellings → ∃ a t, mid = String a t ∧ nat_of_ascii a < 128.
Proof.
  intros (w & i & p & -> & Hw & _)%wip_spelling_inv.
  exists w, (i +:+ String p ""). split; [done|].
  destruct Hw as [-> | ->]; vm_compute; lia.
Qed.

Lemma upper_ascii c s :
  nat_of_ascii c < 128 → Py.upper (String c s) = String (Py.upper_char c) (Py.upper s).
Proof. apply (recase_ascii _ _ upper_forms_wide). Qed.

Lemma upper_dotless s : Py.upper (dotless_i +:+ s) = String "I" (Py.upper s).
Proof.
  apply (recase_form Py.upper_char Py.upper_forms 0x131%N [0x49%N] s).
  vm_compute. by destruct s.
Qed.

Lemma spelling_upper mid post :
  mid ∈ wip_spellings → Py.contains "WIP" (Py.upper (mid +:+ post)) = true.
Proof.
  intros (w & i & p & -> & Hw & Hi & Hp)%wip_spelling_inv.
  rewrite !append_assoc, !app_String, !app_empty_l.
  assert (Py.upper (String p post) = String "P" (Py.upper post)) as HP.
  { destruct Hp as [-> | ->]; by rewrite upper_ascii by (vm_compute; lia). }
  assert (Py.upper (i +:+ String p post) = String "I" (String "P" (Py.upper post))) as HI.
  { rewrite !elem_of_cons, elem_of_nil in Hi. destruct Hi as [->|[->|[->|[]]]].
    - by rewrite app_String, app_empty_l, upper_ascii, HP by (vm_compute; lia).
    - by rewrite app_String, app_empty_l, upper_ascii, HP by (vm_compute; lia).
    - by rewrite upper_dotless, HP. }
  assert (Py.upper (String w (i +:+ String p post)) =
            String "W" (String "I" (String "P" (Py.upper post)))) as ->.
  { destruct Hw as [-> | ->]; by rewrite upper_ascii, HI by (vm_compute; lia). }
  rewrite contains_String. apply orb_true_iff. left.
  rewrite !startswith_cons, !decide_True by done. apply startswith_empty.
Qed.

Lemma marker_upper msg :
  mentions_wip msg → Py.contains "WIP" (Py.upper msg) = true.
Proof.
  intros (pre & mid & post & -> & Hmid).
  remember (String.length pre) as n eqn:Hn. revert pre Hn.
  induction n as [n IH] using lt_wf_ind. intros pre ->.
  destruct pre as [|c pre]; [rewrite app_empty_l; by apply spelling_upper|].
  destruct (upper_cases (String c pre +:+ mid +:+ post))
    as [Heq|[(c' & s' & Heq & Hup)|(cp & form & rest & Hin & Heq & _ & Hup)]];
    [done| |]; rewrite Hup.
  - rewrite app_String in Heq. injection Heq as <- <-.
    rewrite contains_String, (IH (String.length pre)); [apply orb_true_r| |done].
    simpl. lia.
  - destruct (spelling_head mid Hmid) as (a & t & -> & Ha).
    rewrite (app_String a t post) in Heq. symmetry in Heq.
    eapply form_before_ascii in Heq as (pre' & Hpre & ->);
      [|apply upper_forms_wide|done..].
    rewrite (upper_form_marker cp), <-(app_String a t post) by done.
    apply (IH (String.length pre')); [|done].
    rewrite Hpre, length_app. destruct (utf8_nonempty cp) as (? & ? & ->). simpl. lia.
Qed.

(** The test of the script is the case-insensitive substring test. *)
Lemma mentions_wip_iff msg :
  mentions_wip msg ↔ Py.contains "WIP" (Py.upper msg) = true.
Proof. split; [apply marker_upper|apply upper_marker]. Qed.

Lemma not_mentions_wip_iff msg :
  ¬ mentions_wip msg ↔ Py.contains "WIP" (Py.upper msg) = false.
Proof. rewrite mentions_wip_iff. by destruct (Py.contains _ _). Qed.

Lemma lower_cases s :
  s = "" ∨
  (∃ c s', s = String c s' ∧ Py.lower s = String (Py.lower_char c) (Py.lower s')) ∨
  (∃ cp form rest, (cp, form) ∈ Py.lower_forms ∧ s = Py.utf8 cp +:+ rest ∧
                   Py.lower s = Py.utf8_text form +:+ Py.lower rest).
Proof.
  destruct (recase_cases Py.lower_char Py.lower_forms s)
    as [->|[(c & s' & -> & _ & Heq)|(cp & form & rest & ? & ? & _ & ?)]];
    [by left|right; left; eauto|right; right]. by exists cp, form, rest.
Qed.

Lemma lower_char_written c : String c "" ∈ written_as (Py.lower_char c).
Proof. destruct c as [[] [] [] [] [] [] [] []]; vm_compute; repeat constructor. Qed.

Lemma small_ascii_String c name :
  small_ascii (String c name) = true ↔
  (nat_of_ascii c < 128 ∧ Py.lower_char c = c) ∧ small_ascii name = true.
Proof.
  unfold small_ascii. rewrite all_chars_String, andb_true_iff.
  apply and_iff_compat_r.
  destruct c as [[] [] [] [] [] [] [] []]; vm_compute; split; try done;
    first [by intros [_ ?]|intros _; split; [lia|done]|intros [? _]; lia].
Qed.

Lemma capital_lower n :
  (97 <=? nat_of_ascii n) && (nat_of_ascii n <=? 122) = true →
  nat_of_ascii (ascii_of_nat (nat_of_ascii n - 32)) < 128 ∧
  Py.lower_char (ascii_of_nat (nat_of_ascii n - 32)) = n.
Proof.
  destruct n as [[] [] [] [] [] [] [] []]; vm_compute; try done;
    intros _; (split; [lia|done]).
Qed.

(** A character of a name, however it is written, comes out of
    [str.lower] as that character. *)
Lemma written_as_lower n t rest :
  nat_of_ascii n < 128 → Py.lower_char n = n → t ∈ written_as n →
  Py.lower (t +:+ rest) = String n (Py.lower rest).
Proof.
  intros Hn Hlow. unfold written_as. rewrite elem_of_cons, elem_of_app.
  intros [->|[Ht|Ht]].
  - rewrite app_String, app_empty_l. unfold Py.lower.
    rewrite (recase_ascii _ _ lower_forms_wide) by done. by rewrite Hlow.
  - destruct (_ && _) eqn:Hletter; [|by apply elem_of_nil in Ht].
    apply list_elem_of_singleton in Ht as ->.
    destruct (capital_lower n Hletter) as [Hcap Hback].
    rewrite app_String, app_empty_l. unfold Py.lower.
    rewrite (recase_ascii _ _ lower_forms_wide) by done. by rewrite Hback.
  - case_decide as Hk; [|by apply elem_of_nil in Ht].
    apply list_elem_of_singleton in Ht as ->. subst n.
    apply (recase_form Py.lower_char Py.lower_forms 0x212A%N [0x6B%N] rest).
    vm_compute. by destruct rest.
Qed.

(** [str.lower] gives a name exactly on the texts that are that name up
    to the case of its letters. *)
Lemma lower_any_case name arg :
  small_ascii name = true → Py.lower arg = name ↔ any_case name arg.
Proof.
  revert arg. induction name as [|n name IH]; intros arg Hsmall.
  - simpl. split; [|by intros ->].
    destruct (lower_cases arg)
      as [->|[(c & s' & -> & Heq)|(cp & form & rest & Hin & -> & Heq)]];
      rewrite ?Heq; [done..|].
    generalize (Py.lower rest) as X. intros X.
    revert Hin. unfold Py.lower_forms. rewrite !elem_of_cons, elem_of_nil.
    intros [[= -> ->]|[[= -> ->]|[]]]; by vm_compute.
  - apply small_ascii_String in Hsmall as [[Hn Hlow] Hsmall]. split.
    + destruct (lower_cases arg)
        as [->|[(c & s' & -> & Heq)|(cp & form & rest & Hin & -> & Heq)]];
        rewrite ?Heq; [done| |].
      * intros [= <- Hrest]. exists (String c ""), s'.
        split_and!; [done|apply lower_char_written|by apply IH].
      * remember (Py.lower rest) as X eqn:HX.
        revert Hin. unfold Py.lower_forms. rewrite !elem_of_cons, elem_of_nil.
        intros [[= -> ->]|[[= -> ->]|[]]] Hform.
        -- assert (n = "i"%char ∧ name = String "204" (String "135" X)) as [-> ->].
           { clear -Hform. vm_compute in Hform. by injection Hform as <- <-. }
           apply small_ascii_String in Hsmall as [[Hwide _] _].
           clear -Hwide. vm_compute in Hwide. lia.
        -- assert (n = "k"%char ∧ name = X) as [-> ->].
           { clear -Hform. vm_compute in Hform. by injection Hform as <- <-. }
           exists kelvin_sign, rest. split_and!; [done| |by apply IH].
           unfold written_as. set_solver.
    + intros (t & rest & -> & Ht & Hrest).
      rewrite (written_as_lower n) by done. f_equal. by apply IH.
Qed.

(** ** The entry point *)

(** C8: [main] wants exactly one argument after the program name. With any
    other number of arguments it prints the usage line. With one argument
    it runs the operation whose name the argument is up to the case of its
    letters; an argument that is none of the three names makes it print the
    list of commands. In both failing cases that print is the only effect
    (no query, no file), every file on disk is as it was, and the exit
    status is 1. *)
Theorem main_dispatch (argv : list string) (w : World) :
  (length argv ≠ 2 →
     main argv w =
       ([Print "Usage: python git_toolbox.py [manifest|changelog|check-wip]"],
        inl (SystemExit 1))) ∧
  (∀ prog arg, argv = [prog; arg] →
     (any_case "manifest" arg → main argv w = build_manifest w) ∧
     (any_case "changelog" arg → main argv w = build_changelog w) ∧
     (any_case "check-wip" arg → main argv w = check_wip w) ∧
     (unrecognized arg →
        main argv w =
          ([Print "Invalid command. Use one of: manifest, changelog, check-wip"],
           inl (SystemExit 1)))) ∧
  (length argv ≠ 2 ∨ (∃ prog arg, argv = [prog; arg] ∧ unrecognized arg) →
     exit_status (main argv w).2 = 1%Z ∧
     Forall (λ e, touches_file e = false) (main argv w).1 ∧
     ∀ fs, fs_after fs (main argv w).1 = fs).
Proof.
  assert (length argv ≠ 2 →
          main argv w =
            ([Print "Usage: python git_toolbox.py [manifest|changelog|check-wip]"],
             inl (SystemExit 1))) as Hcount.
  { intros Hlen. unfold main. by rewrite decide_True. }
  assert (∀ prog arg, argv = [prog; arg] →
     (any_case "manifest" arg → main argv w = build_manifest w) ∧
     (any_case "changelog" arg → main argv w = build_changelog w) ∧
     (any_case "check-wip" arg → main argv w = check_wip w) ∧
     (unrecognized arg →
        main argv w =
          ([Print "Invalid command. Use one of: manifest, changelog, check-wip"],
           inl (SystemExit 1)))) as Hname.
  { intros prog arg ->. unfold main. rewrite decide_False by (intros ?; done).
    change (default "" ([prog; arg] !! 1)) with arg.
    split_and!.
    - intros Hm%lower_any_case; [|done]. rewrite Hm. by repeat case_decide.
    - intros Hc%lower_any_case; [|done]. rewrite Hc. by repeat case_decide.
    - intros Hg%lower_any_case; [|done]. rewrite Hg. by repeat case_decide.
    - intros (Hm & Hc & Hg).
      rewrite <-lower_any_case in Hm, Hc, Hg by done.
      by repeat case_decide. }
  split_and!; [done..|].
  intros Hbad.
  assert (∃ text, main argv w = ([Print text], inl (SystemExit 1))) as [text Hrun].
  { destruct Hbad as [Hlen|(prog & arg & Hargv & Hun)].
    - eexists. by apply Hcount.
    - eexists. by eapply Hname. }
  rewrite Hrun.
  assert (Forall (λ e, touches_file e = false) [Print text]) as Hno.
  { by apply Forall_singleton. }
  split_and!; [done|exact Hno|]. intros fs. by apply fs_after_untouched.
Qed.

Lemma main_dispatch_witness :
  main ["git_toolbox.py"] no_git =
    ([Print "Usage: python git_toolbox.py [manifest|changelog|check-wip]"],
     inl (SystemExit 1)) ∧
  main ["git_toolbox.py"; "check-wip"; "now"] no_git =
    ([Print "Usage: python git_toolbox.py [manifest|changelog|check-wip]"],
     inl (SystemExit 1)) ∧
  main ["git_toolbox.py"; "deploy"] no_git =
    ([Print "Invalid command. Use one of: manifest, changelog, check-wip"],
     inl (SystemExit 1)) ∧
  main ["git_toolbox.py"; "MANIFEST"] manifest_world = build_manifest manifest_world ∧
  main ["git_toolbox.py"; "ChangeLog"] (history_world busy_history) =
    build_changelog (history_world busy_history) ∧
  main ["git_toolbox.py"; "Check-WIP"] (history_world draft_history) =
    check_wip (history_world draft_history) ∧
  main ["git_toolbox.py"; "chec" +:+ kelvin_sign +:+ "-wip"] (history_world draft_history) =
    check_wip (history_world draft_history).
Proof.
  split_and!.
  - apply (main_dispatch ["git_toolbox.py"]). simpl. lia.
  - apply (main_dispatch ["git_toolbox.py"; "check-wip"; "now"]). simpl. lia.
  - destruct (main_dispatch ["git_toolbox.py"; "deploy"] no_git) as (_ & Hname & _).
    apply (Hname "git_toolbox.py" "deploy" eq_refl).
    unfold unrecognized. split_and!; rewrite <-lower_any_case by reflexivity; by vm_compute.
  - destruct (main_dispatch ["git_toolbox.py"; "MANIFEST"] manifest_world)
      as (_ & Hname & _).
    apply (Hname "git_toolbox.py" "MANIFEST" eq_refl).
    apply lower_any_case; by vm_compute.
  - destruct (main_dispatch ["git_toolbox.py"; "ChangeLog"] (history_world busy_history))
      as (_ & Hname & _).
    apply (Hname "git_toolbox.py" "ChangeLog" eq_refl).
    apply lower_any_case; by vm_compute.
  - destruct (main_dispatch ["git_toolbox.py"; "Check-WIP"] (history_world draft_history))
      as (_ & Hname & _).
    apply (Hname "git_toolbox.py" "Check-WIP" eq_refl).
    apply lower_any_case; by vm_compute.
  - destruct (main_dispatch ["git_toolbox.py"; "chec" +:+ kelvin_sign +:+ "-wip"]
                (history_world draft_history)) as (_ & Hname & _).
    apply (Hname "git_toolbox.py" ("chec" +:+ kelvin_sign +:+ "-wip") eq_refl).
    apply lower_any_case; by vm_compute.
Defined.

(** ** The History Reader *)

Lemma get_commits_run w out :
  w log_cmd = Exited 0 out →
  get_commits w = ([Exec log_cmd], inr (Py.strip <$> Py.splitlines out)).
Proof.
  intros Hw. unfold get_commits.
  rewrite (bind_ok _ _ w [Exec log_cmd] out); [done|].
  unfold check_output. by rewrite Hw.
Qed.

Lemma unpack4_log_line c w :
  delimited c →
  unpack4 (Py.split "|" 3 (log_line c)) w =
    ([], inr (hash c, date c, author c, subject c)).
Proof. intros Hc. by rewrite split_log_line. Qed.

Lemma summary_line_run f c w :
  delimited c → summary_line f (log_line c) w = ([summary_entry f c], inr tt).
Proof.
  intros Hc. unfold summary_line.
  by rewrite (bind_ret_nil _ _ _ _ (unpack4_log_line c w Hc)).
Qed.

Lemma group_line_run grouped c w :
  delimited c →
  group_line grouped (log_line c) w =
    ([], inr (dd_append (date c) (subject c, author c) grouped)).
Proof.
  intros Hc. unfold group_line.
  by rewrite (bind_ret_nil _ _ _ _ (unpack4_log_line c w Hc)).
Qed.

Lemma check_wip_line_run c w :
  delimited c →
  check_wip_line (log_line c) w =
    if Py.contains "WIP" (Py.upper (subject c))
    then ([Print (blocked_message (subject c))], inl (SystemExit 1))
    else ([], inr tt).
Proof.
  intros Hc. unfold check_wip_line.
  rewrite (bind_ret_nil _ _ _ _ (unpack4_log_line c w Hc)).
  by destruct (Py.contains _ _).
Qed.

(** C5: a log line [hash|date|author|subject] is split at its first three
    delimiters only, so it never yields more than four fields and the fourth
    is the subject as it stands, delimiters included; the changelog (both of
    its loops) and the WIP gate unpack the line that way. *)
Theorem subject_recovered_verbatim (c : CommitRecord) (w : World) :
  delimited c →
  Py.split "|" 3 (log_line c) = [hash c; date c; author c; subject c] ∧
  (∀ line, length (Py.split "|" 3 line) ≤ 4) ∧
  (∀ f, summary_line f (log_line c) w = ([summary_entry f c], inr tt)) ∧
  (∀ grouped, group_line grouped (log_line c) w =
     ([], inr (dd_append (date c) (subject c, author c) grouped))) ∧
  check_wip_line (log_line c) w =
    (if Py.contains "WIP" (Py.upper (subject c))
     then ([Print (blocked_message (subject c))], inl (SystemExit 1))
     else ([], inr tt)).
Proof.
  intros Hc. split_and!.
  - by apply split_log_line.
  - intros line. apply split_length.
  - intros f. by apply summary_line_run.
  - intros grouped. by apply group_line_run.
  - by apply check_wip_line_run.
Qed.

Lemma subject_recovered_verbatim_witness :
  Py.split "|" 3 "9fceb02|2024-03-02|ann|feat: a|b pipeline || retry" =
    ["9fceb02"; "2024-03-02"; "ann"; "feat: a|b pipeline || retry"].
Proof.
  apply (subject_recovered_verbatim
           (Commit "9fceb02" "2024-03-02" "ann" "feat: a|b pipeline || retry")
           (world NotStarted NotStarted NotStarted)).
  by vm_compute.
Defined.

(** ** The WIP gate *)

Lemma concat_fmap_nil {A B} (l : list A) : concat ((λ _, @nil B) <$> l) = [].
Proof. by induction l. Qed.

(** C2: [check_wip] goes through the commits in the order received and
    tests each subject for the marker in any spelling of its letters
    ([wip_spellings]), as a substring, inside a word or not. At the first
    subject that has it, it prints that subject and exits with status 1, and
    whatever follows that commit in the log has no part in the run; when no
    subject has it, it prints the all-clear and exits with status 0. *)
Theorem check_wip_first_match (w : World) (out : string) :
  w log_cmd = Exited 0 out →
  (∀ pre c rest,
     Py.strip <$> Py.splitlines out = (log_line <$> pre) ++ log_line c :: rest →
     Forall delimited (pre ++ [c]) →
     Forall (λ r, ¬ mentions_wip (subject r)) pre →
     mentions_wip (subject c) →
     check_wip w =
       ([Exec log_cmd; Print (blocked_message (subject c))], inl (SystemExit 1)) ∧
     exit_status (check_wip w).2 = 1%Z) ∧
  (∀ rs,
     Py.strip <$> Py.splitlines out = log_line <$> rs →
     Forall delimited rs →
     Forall (λ r, ¬ mentions_wip (subject r)) rs →
     check_wip w = ([Exec log_cmd; Print "✅ No WIP commits found."], inr tt) ∧
     exit_status (check_wip w).2 = 0%Z).
Proof.
  intros Hw.
  assert (∀ rs, Forall delimited rs →
                Forall (λ r, ¬ mentions_wip (subject r)) rs →
                ∀ y, y ∈ log_line <$> rs → check_wip_line y w = ([], inr tt)) as Hclean.
  { intros rs Hdel Hno y (r & -> & Hr)%list_elem_of_fmap.
    rewrite Forall_forall in Hdel, Hno.
    rewrite check_wip_line_run by auto.
    apply Hno, not_mentions_wip_iff in Hr. by rewrite Hr. }
  split.
  - intros pre c rest Hlines [Hpre Hc]%Forall_app Hno Hwip.
    rewrite Forall_singleton in Hc.
    assert (check_wip w =
      ([Exec log_cmd; Print (blocked_message (subject c))], inl (SystemExit 1))) as Hrun.
    { unfold check_wip. rewrite (bind_ok _ _ _ _ _ (get_commits_run w out Hw)).
      rewrite Hlines.
      erewrite (bind_raise (for_ _ _)).
      2:{ apply (for__raise _ _ _ _ (λ _, [])); [by apply Hclean|].
          rewrite check_wip_line_run by done.
          apply mentions_wip_iff in Hwip. by rewrite Hwip. }
      by rewrite concat_fmap_nil. }
    by rewrite Hrun.
  - intros rs Hlines Hdel Hno.
    assert (check_wip w =
      ([Exec log_cmd; Print "✅ No WIP commits found."], inr tt)) as Hrun.
    { unfold check_wip. rewrite (bind_ok _ _ _ _ _ (get_commits_run w out Hw)).
      rewrite Hlines.
      erewrite (bind_ok (for_ _ _)).
      2:{ apply (for__ok _ _ (λ _, [])). by apply Hclean. }
      by rewrite concat_fmap_nil. }
    by rewrite Hrun.
Qed.

Lemma check_wip_first_match_witness :
  check_wip (history_world draft_history) =
    ([Exec log_cmd; Print (blocked_message "WIP: draft")], inl (SystemExit 1)) ∧
  check_wip (history_world wiped_history) =
    ([Exec log_cmd; Print (blocked_message "swiped the cache")], inl (SystemExit 1)) ∧
  check_wip (history_world dotless_history) =
    ([Exec log_cmd; Print (blocked_message "wıp cleanup")], inl (SystemExit 1)) ∧
  check_wip (history_world clean_history) =
    ([Exec log_cmd; Print "✅ No WIP commits found."], inr tt).
Proof.
  split_and!.
  - apply (check_wip_first_match (history_world draft_history)
             (unlines (log_line <$> draft_history)) eq_refl)
      with (pre := [Commit "a1f0" "2024-03-02" "ann" "fix bug"])
           (c := Commit "b2e1" "2024-03-02" "bob" "WIP: draft")
           (rest := ["c3d2|2024-03-01|ann|release"]).
    + by vm_compute.
    + repeat constructor.
    + constructor; [|constructor]. apply not_mentions_wip_iff. by vm_compute.
    + apply mentions_wip_iff. by vm_compute.
  - apply (check_wip_first_match (history_world wiped_history)
             (unlines (log_line <$> wiped_history)) eq_refl)
      with (pre := [Commit "a1f0" "2024-03-02" "ann" "fix bug"])
           (c := Commit "b2e1" "2024-03-02" "bob" "swiped the cache")
           (rest := ["c3d2|2024-03-01|ann|WIP: draft"]).
    + by vm_compute.
    + repeat constructor.
    + constructor; [|constructor]. apply not_mentions_wip_iff. by vm_compute.
    + apply mentions_wip_iff. by vm_compute.
  - apply (check_wip_first_match (history_world dotless_history)
             (unlines (log_line <$> dotless_history)) eq_refl)
      with (pre := [Commit "a1f0" "2024-03-02" "ann" "añadir pruebas"])
           (c := Commit "b2e1" "2024-03-02" "bob" "wıp cleanup")
           (rest := ["c3d2|2024-03-01|ann|release"]).
    + by vm_compute.
    + repeat constructor.
    + constructor; [|constructor]. apply not_mentions_wip_iff. by vm_compute.
    + apply mentions_wip_iff. by vm_compute.
  - apply (check_wip_first_match (history_world clean_history)
             (unlines (log_line <$> clean_history)) eq_refl)
      with (rs := clean_history).
    + by vm_compute.
    + repeat constructor.
    + repeat constructor; apply not_mentions_wip_iff; by vm_compute.
Defined.

(** ** The changelog *)

Lemma write_bind {B} f text (k : unit → M B) w :
  (write f text ≫= k) w = (Write f text :: (k tt w).1, (k tt w).2).
Proof. by rewrite (bind_ok _ _ w [Write f text] tt). Qed.

Lemma concat_fmap_singleton {A B} (g : A → B) (l : list A) :
  concat ((λ x, [g x]) <$> l) = g <$> l.
Proof. induction l as [|x l IH]; [done|]. csimpl. by rewrite IH. Qed.

Lemma dd_get_append {V} (g : gmap string (list V)) k v d :
  dd_get (dd_append k v g) d =
    if decide (d = k) then dd_get g d ++ [v] else dd_get g d.
Proof.
  unfold dd_append, dd_get at 1. destruct (decide (d = k)) as [->|Hne].
  - by rewrite lookup_insert_eq.
  - by rewrite lookup_insert_ne.
Qed.

Lemma on_date_cons d c rs :
  on_date d (c :: rs) = if decide (d = date c) then c :: on_date d rs else on_date d rs.
Proof.
  unfold on_date. rewrite filter_cons.
  destruct (decide (date c = d)), (decide (d = date c)); congruence.
Qed.

(** The loop files each commit under its date, after those already there. *)
Lemma grouping_get rs g d :
  dd_get (foldl file_commit g rs) d =
    dd_get g d ++ ((λ c, (subject c, author c)) <$> on_date d rs).
Proof.
  revert g. induction rs as [|c rs IH]; intros g; simpl.
  - by rewrite (right_id_L [] (++)).
  - rewrite IH, on_date_cons. unfold file_commit at 1. rewrite dd_get_append.
    destruct (decide (d = date c)); [|done].
    by rewrite <-(assoc_L (++)).
Qed.

Lemma grouping_dom rs g :
  dom (foldl file_commit g rs) = dom g ∪ list_to_set (date <$> rs).
Proof.
  revert g. induction rs as [|c rs IH]; intros g; simpl.
  - set_solver.
  - rewrite IH. unfold file_commit at 1, dd_append. rewrite dom_insert_L. set_solver.
Qed.

Lemma grouping_run rs g w :
  Forall delimited rs →
  for_fold (log_line <$> rs) group_line g w = ([], inr (foldl file_commit g rs)).
Proof.
  revert g. induction rs as [|c rs IH]; intros g Hdel; [done|].
  apply Forall_cons in Hdel as [Hc Hdel]. simpl.
  rewrite (bind_ret_nil _ _ _ _ (group_line_run g c w Hc)).
  by apply IH.
Qed.

Lemma elem_of_keys {V} (g : gmap string V) d : d ∈ keys g ↔ d ∈ dom g.
Proof.
  unfold keys. rewrite elem_of_dom, list_elem_of_fmap. split.
  - intros ([k v] & -> & Hkv%elem_of_map_to_list). by exists v.
  - intros [v Hv]. exists (d, v). by rewrite elem_of_map_to_list.
Qed.

Lemma NoDup_keys {V} (g : gmap string V) : NoDup (keys g).
Proof. apply NoDup_fst_map_to_list. Qed.

Lemma grouped_get rs d :
  dd_get (grouped_of rs) d = (λ c, (subject c, author c)) <$> on_date d rs.
Proof. unfold grouped_of. by rewrite grouping_get. Qed.

Lemma elem_of_grouped_keys rs d : d ∈ keys (grouped_of rs) ↔ d ∈ date <$> rs.
Proof.
  rewrite elem_of_keys. unfold grouped_of. rewrite grouping_dom. set_solver.
Qed.

Lemma history_section_run f rs d w :
  history_section f (grouped_of rs) d w = (date_section f (d, on_date d rs), inr tt).
Proof.
  unfold history_section, date_section. rewrite write_bind. simpl.
  rewrite grouped_get.
  erewrite (bind_ok (for_ _ _)).
  2:{ apply (for__ok _ _ (λ '(msg, who),
               [Write f ("- " +:+ msg +:+ " — " +:+ who +:+ Py.nl)])).
      by intros [msg who] _. }
  simpl. rewrite <-list_fmap_compose.
  by rewrite <-(concat_fmap_singleton (history_entry f)).
Qed.

(** The whole run of [build_changelog] on a well-delimited history. *)
Lemma build_changelog_run w out rs :
  w log_cmd = Exited 0 out →
  Py.strip <$> Py.splitlines out = log_line <$> rs →
  Forall delimited rs →
  build_changelog w =
    (changelog_head "CHANGELOG.md" ++
     (summary_entry "CHANGELOG.md" <$> take RECENT_LIMIT rs) ++
     full_history_title "CHANGELOG.md" ::
     concat (date_section "CHANGELOG.md" <$> date_groups rs) ++
     changelog_tail "CHANGELOG.md", inr tt).
Proof.
  intros Hw Hlines Hdel. unfold build_changelog.
  rewrite (bind_ok _ _ _ _ _ (get_commits_run w out Hw)), Hlines.
  set (f := "CHANGELOG.md").
  assert (∀ k : string → M unit, ∀ t, k f w = (t, inr tt) →
          (with_open f k ≫= λ _, print "✅ CHANGELOG.md updated.") w =
            (Open f :: t ++ changelog_tail f, inr tt)) as Hwith.
  { intros k t Hk. erewrite bind_ok by (by rewrite with_open_run, Hk).
    simpl. by rewrite <-(assoc_L (++)). }
  erewrite Hwith; cycle 1.
  { rewrite write_bind.
    rewrite (bind_ret_nil _ _ _ _ (grouping_run rs ∅ w Hdel)).
    fold (grouped_of rs). rewrite write_bind.
    rewrite <-fmap_take.
    erewrite (bind_ok (for_ _ _)).
    2:{ rewrite for__fmap. apply (for__ok _ _ (λ c, [summary_entry f c])).
        intros c Hc%(subseteq_take _ _).
        rewrite Forall_forall in Hdel. by apply summary_line_run, Hdel. }
    rewrite write_bind.
    rewrite (for__ok _ _ (λ d, date_section f (d, on_date d rs)))
      by (intros; apply history_section_run).
    simpl. reflexivity. }
  simpl. rewrite concat_fmap_singleton. unfold date_groups.
  rewrite <-list_fmap_compose. do 4 f_equal.
  by rewrite <-!(assoc_L (++)).
Qed.

(** *** Order and grouping of the date subsections *)

Lemma flip_le_transitive : Transitive (flip String.le).
Proof. intros x y z Hxy Hyz. unfold flip in *. by etrans. Qed.

Lemma flip_le_total : Total (flip String.le).
Proof. intros x y. unfold flip. destruct (total String.le x y); auto. Qed.

Lemma StronglySorted_strict {A} (R : relation A) (l : list A) :
  StronglySorted R l → NoDup l → StronglySorted (λ a b, R a b ∧ a ≠ b) l.
Proof.
  induction 1 as [|x l Hl IH Hx]; intros Hnd; [constructor|].
  apply NoDup_cons in Hnd as [Hnotin Hnd].
  constructor; [by apply IH|].
  rewrite Forall_forall in Hx |- *. intros y Hy. split; [by apply Hx|].
  by intros ->.
Qed.

Lemma sorted_reverse_strict (l : list string) :
  NoDup l → StronglySorted strictly_after (Py.sorted_reverse l).
Proof.
  intros Hnd. apply (StronglySorted_strict (flip String.le)).
  - apply StronglySorted_merge_sort; [apply flip_le_transitive|apply flip_le_total].
  - unfold Py.sorted_reverse. by rewrite merge_sort_Permutation.
Qed.

Lemma sorted_strict (l : list string) :
  NoDup l → StronglySorted strictly_before (Py.sorted l).
Proof.
  intros Hnd. apply (StronglySorted_strict String.le).
  - apply StronglySorted_merge_sort; apply _.
  - unfold Py.sorted. by rewrite merge_sort_Permutation.
Qed.

Lemma on_date_other d d' rs :
  d' ≠ d → on_date d' (filter (λ c, date c ≠ d) rs) = on_date d' rs.
Proof.
  intros Hne. unfold on_date. induction rs as [|c rs IH]; [done|].
  rewrite (filter_cons (λ c, date c ≠ d)), (filter_cons (λ c, date c = d')).
  destruct (decide (date c ≠ d)) as [Hc|Hc], (decide (date c = d')) as [Hc'|Hc'];
    rewrite ?filter_cons; try case_decide; try congruence.
  apply dec_stable in Hc. congruence.
Qed.

(** Distinct dates that cover a history cut it into its date groups. *)
Lemma partition_by_date (ds : list string) (rs : list CommitRecord) :
  NoDup ds → (∀ c, c ∈ rs → date c ∈ ds) →
  concat ((λ d, on_date d rs) <$> ds) ≡ₚ rs.
Proof.
  revert rs. induction ds as [|d ds IH]; intros rs Hnd Hcover.
  - destruct rs as [|c rs]; [done|]. specialize (Hcover c). set_solver.
  - apply NoDup_cons in Hnd as [Hd Hnd]. csimpl.
    etrans; [|apply (filter_app_complement (λ c, date c = d) rs)].
    apply Permutation_app; [done|].
    rewrite <-(IH (filter (λ c, date c ≠ d) rs)); [|done|].
    + apply reflexive_eq. f_equal. apply list_fmap_ext.
      intros i d' Hd'%list_elem_of_lookup_2. symmetry. apply on_date_other.
      by intros ->.
    + intros c [Hc Hin]%list_elem_of_filter. specialize (Hcover c Hin). set_solver.
Qed.

Lemma date_groups_dates rs :
  (date_groups rs).*1 = Py.sorted_reverse (keys (grouped_of rs)).
Proof.
  unfold date_groups. rewrite <-list_fmap_compose. apply list_fmap_id.
Qed.

Lemma date_groups_commits rs :
  (date_groups rs).*2 = (λ d, on_date d rs) <$> Py.sorted_reverse (keys (grouped_of rs)).
Proof. unfold date_groups. by rewrite <-list_fmap_compose. Qed.

Lemma elem_of_sorted_reverse d l : d ∈ Py.sorted_reverse l ↔ d ∈ l.
Proof. unfold Py.sorted_reverse. by rewrite merge_sort_Permutation. Qed.

Lemma elem_of_sorted d l : d ∈ Py.sorted l ↔ d ∈ l.
Proof. unfold Py.sorted. by rewrite merge_sort_Permutation. Qed.

(** C4: the Summary section of the changelog, the writes between the
    summary header and the title of the full history, holds one entry
    [- date — subject — Author: author] for each of the first five commits
    received (all of them when there are fewer), in the order received:
    [min 5 n] entries for [n] commits. *)
Theorem summary_lists_first_commits (w : World) (out : string) (rs : list CommitRecord) :
  w log_cmd = Exited 0 out →
  Py.strip <$> Py.splitlines out = log_line <$> rs →
  Forall delimited rs →
  let f := "CHANGELOG.md" in
  let summary := summary_entry f <$> take RECENT_LIMIT rs in
  build_changelog w =
    (changelog_head f ++ summary ++
     full_history_title f :: concat (date_section f <$> date_groups rs) ++
     changelog_tail f, inr tt) ∧
  length summary = Nat.min 5 (length rs) ∧
  (full_history_title f ∉ summary) ∧
  (∀ i c, i < 5 → rs !! i = Some c → summary !! i = Some (summary_entry f c)).
Proof.
  intros Hw Hlines Hdel f summary. split_and!.
  - by apply (build_changelog_run w out rs).
  - unfold summary. by rewrite length_fmap, length_take.
  - unfold summary. intros (c & Heq & _)%list_elem_of_fmap.
    unfold full_history_title, summary_entry in Heq. by simplify_eq.
  - intros i c Hi Hc. unfold summary.
    by rewrite list_lookup_fmap, lookup_take_lt, Hc.
Qed.

Lemma summary_lists_first_commits_witness :
  let f := "CHANGELOG.md" in
  let summary := summary_entry f <$> take RECENT_LIMIT busy_history in
  build_changelog (history_world busy_history) =
    (changelog_head f ++ summary ++
     full_history_title f :: concat (date_section f <$> date_groups busy_history) ++
     changelog_tail f, inr tt) ∧
  length summary = Nat.min 5 (length busy_history) ∧
  (full_history_title f ∉ summary) ∧
  (∀ i c, i < 5 → busy_history !! i = Some c →
          summary !! i = Some (summary_entry f c)).
Proof.
  apply (summary_lists_first_commits (history_world busy_history)
           (unlines (log_line <$> busy_history)) busy_history eq_refl).
  - by vm_compute.
  - repeat constructor.
Defined.

(** C3: the full history of the changelog is a sequence of date
    subsections whose dates are those of the commits, each once, in
    strictly descending order; the subsection of a date lists the commits of
    that date and no others, in the order received, so that the subsections
    together hold every commit exactly once. *)
Theorem history_grouped_by_date (w : World) (out : string) (rs : list CommitRecord) :
  w log_cmd = Exited 0 out →
  Py.strip <$> Py.splitlines out = log_line <$> rs →
  Forall delimited rs →
  let f := "CHANGELOG.md" in
  let groups := date_groups rs in
  build_changelog w =
    (changelog_head f ++ (summary_entry f <$> take RECENT_LIMIT rs) ++
     full_history_title f :: concat (date_section f <$> groups) ++
     changelog_tail f, inr tt) ∧
  StronglySorted strictly_after groups.*1 ∧
  NoDup groups.*1 ∧
  (∀ d, d ∈ groups.*1 ↔ d ∈ date <$> rs) ∧
  (∀ d cs, (d, cs) ∈ groups → cs = filter (λ c, date c = d) rs ∧ cs ≠ []) ∧
  concat groups.*2 ≡ₚ rs.
Proof.
  intros Hw Hlines Hdel f groups.
  assert (∀ d, d ∈ groups.*1 ↔ d ∈ date <$> rs) as Hdates.
  { intros d. unfold groups.
    by rewrite date_groups_dates, elem_of_sorted_reverse, elem_of_grouped_keys. }
  assert (NoDup groups.*1) as Hnd.
  { unfold groups, Py.sorted_reverse. rewrite date_groups_dates.
    unfold Py.sorted_reverse. rewrite merge_sort_Permutation. apply NoDup_keys. }
  split_and!; [|..|done| |].
  - by apply (build_changelog_run w out rs).
  - unfold groups. rewrite date_groups_dates.
    apply sorted_reverse_strict, NoDup_keys.
  - done.
  - intros d cs Hin.
    assert (d ∈ groups.*1) as (c & -> & Hc)%Hdates%list_elem_of_fmap.
    { apply list_elem_of_fmap. by exists (d, cs). }
    unfold groups, date_groups in Hin.
    apply list_elem_of_fmap in Hin as (d' & [= <- ->] & _).
    split; [done|]. intros Hnil.
    assert (c ∈ on_date (date c) rs) as Hmem by (by apply list_elem_of_filter).
    rewrite Hnil in Hmem. by apply elem_of_nil in Hmem.
  - unfold groups. rewrite date_groups_commits.
    apply partition_by_date.
    + unfold groups in Hnd. by rewrite date_groups_dates in Hnd.
    + intros c Hc. apply elem_of_sorted_reverse, elem_of_grouped_keys.
      by apply list_elem_of_fmap_2.
Qed.

Lemma history_grouped_by_date_witness :
  (date_groups busy_history).*1 = ["2024-03-03"; "2024-03-02"; "2024-03-01"] ∧
  StronglySorted strictly_after (date_groups busy_history).*1 ∧
  concat (date_groups busy_history).*2 ≡ₚ busy_history.
Proof.
  split; [by vm_compute|].
  pose proof (history_grouped_by_date (history_world busy_history)
                (unlines (log_line <$> busy_history)) busy_history eq_refl
                ltac:(by vm_compute) ltac:(repeat constructor)) as H.
  simpl in H. destruct H as (_ & Hsorted & _ & _ & _ & Hperm). by split.
Defined.

(** ** The manifest *)

(** *** One line of the extended log *)

Lemma getitem_run d k v w : d !! k = Some v → getitem d k w = ([], inr v).
Proof. intros Hk. unfold getitem. by rewrite Hk. Qed.

Lemma getitem_missing d k w : d !! k = None → getitem d k w = ([], inl (KeyError k)).
Proof. intros Hk. unfold getitem. by rewrite Hk. Qed.

Lemma manifest_line_header st line d m w :
  classify line = HeaderLine d m →
  ∃ h, manifest_line st line w =
         ([], inr (ParseState {[ "hash" := h; "date" := d; "msg" := m ]}
                              (added st) (deleted st) (recent_changes st))).
Proof.
  unfold classify, manifest_line. destruct (Py.contains "|" line).
  - destruct (Py.split "|" 2 (Py.strip line)) as [|h [|d' [|m' [|]]]]; try done.
    intros [= -> ->]. by exists h.
  - destruct (Py.startswith line "A" || Py.startswith line "D"); [|done].
    by destruct (Py.split_ws1 line) as [|? [|? [|]]].
Qed.

Lemma manifest_line_other st line w :
  classify line = OtherLine → manifest_line st line w = ([], inr st).
Proof.
  unfold classify, manifest_line. destruct (Py.contains "|" line).
  - by destruct (Py.split "|" 2 (Py.strip line)) as [|h [|d' [|m' [|]]]].
  - destruct (Py.startswith line "A" || Py.startswith line "D"); [|done].
    by destruct (Py.split_ws1 line) as [|? [|? [|]]].
Qed.

Lemma manifest_line_broken st line w :
  classify line = BrokenLine → manifest_line st line w = ([], inl ValueError).
Proof.
  unfold classify, manifest_line. destruct (Py.contains "|" line).
  - by destruct (Py.split "|" 2 (Py.strip line)) as [|h [|d' [|m' [|]]]].
  - destruct (Py.startswith line "A" || Py.startswith line "D"); [|done].
    by destruct (Py.split_ws1 line) as [|? [|? [|]]].
Qed.

(** A status line is unpacked, then the date of the current commit is
    looked up, whatever the status word. *)
Lemma manifest_line_status st line s p w :
  classify line = StatusLine s p →
  manifest_line st line w =
    (date ← getitem (current_commit st) "date";
     msg ← getitem (current_commit st) "msg";
     let entry := date +:+ " — " +:+ msg in
     if decide (s = "A") then
       ret (ParseState (current_commit st)
              (dd_append p entry (added st)) (deleted st)
              (recent_changes st ++
                 [date +:+ " — Added " +:+ p +:+ " — " +:+ dquote +:+ msg +:+ dquote]))
     else if decide (s = "D") then
       ret (ParseState (current_commit st)
              (added st) (dd_append p entry (deleted st))
              (recent_changes st ++
                 [date +:+ " — Deleted " +:+ p +:+ " — " +:+ dquote +:+ msg +:+ dquote]))
     else ret st) w.
Proof.
  unfold classify, manifest_line. destruct (Py.contains "|" line).
  - by destruct (Py.split "|" 2 (Py.strip line)) as [|h [|d' [|m' [|]]]].
  - destruct (Py.startswith line "A" || Py.startswith line "D"); [|done].
    destruct (Py.split_ws1 line) as [|s' [|p' [|]]]; try done.
    intros [= -> ->]. by rewrite (bind_ret_nil _ _ _ (s, p)).
Qed.

Lemma manifest_line_status_no_context st line s p w :
  classify line = StatusLine s p →
  current_commit st !! "date" = None →
  manifest_line st line w = ([], inl (KeyError "date")).
Proof.
  intros Hclass Hnone. rewrite (manifest_line_status _ _ _ _ _ Hclass).
  by rewrite (bind_raise _ _ _ _ _ (getitem_missing _ _ w Hnone)).
Qed.

(** *** The parsing loop and the events of the stream *)

Lemma dd_get_held {V} (d : gmap string (list V)) p l :
  d !! p = held l → dd_get d p = l.
Proof. unfold dd_get. intros ->. by destruct l. Qed.

Lemma held_snoc {V} (l : list V) v : held (l ++ [v]) = Some (l ++ [v]).
Proof. by destruct l. Qed.

Lemma changes_snoc st q evs e :
  changes st q (evs ++ [e]) =
    changes st q evs ++ (if decide (status e = st ∧ path e = q) then [e] else []).
Proof.
  unfold changes. rewrite filter_app. by f_equal.
Qed.

Lemma dd_append_held (d : gmap string (list string)) st evs e :
  status e = st →
  (∀ q, d !! q = held (entry_of <$> changes st q evs)) →
  ∀ q, dd_append (path e) (entry_of e) d !! q =
         held (entry_of <$> changes st q (evs ++ [e])).
Proof.
  intros Hst Hd q. unfold dd_append. rewrite changes_snoc.
  destruct (decide (path e = q)) as [<-|Hne].
  - rewrite lookup_insert_eq, (dd_get_held _ _ _ (Hd _)).
    rewrite decide_True by done. rewrite fmap_app. csimpl. by rewrite held_snoc.
  - rewrite lookup_insert_ne by done.
    rewrite decide_False by (by intros [_ ?]).
    by rewrite (right_id_L [] (++)).
Qed.

Lemma held_unchanged (d : gmap string (list string)) st evs e :
  status e ≠ st →
  (∀ q, d !! q = held (entry_of <$> changes st q evs)) →
  ∀ q, d !! q = held (entry_of <$> changes st q (evs ++ [e])).
Proof.
  intros Hst Hd q. rewrite changes_snoc.
  rewrite decide_False by (by intros [? _]).
  by rewrite (right_id_L [] (++)).
Qed.

Lemma parse_run w lines :
  ∀ st ctx evs,
    represents st ctx evs →
    well_formed_from (has_header ctx) lines = true →
    ∃ st', for_fold lines manifest_line st w = ([], inr st') ∧
           represents st' (context_after ctx lines) (evs ++ events_from ctx lines).
Proof.
  induction lines as [|l ls IH]; intros st ctx evs Hrep Hwf.
  { exists st. simpl. by rewrite (right_id_L [] (++)). }
  simpl in *. destruct (classify l) as [d m|s p| |] eqn:Hclass; [| |done|].
  - destruct (manifest_line_header st l d m w Hclass) as [h Hstep].
    rewrite (bind_ret_nil _ _ _ _ Hstep). apply IH; [|done].
    destruct Hrep as (_ & _ & Hadd & Hdel & Hrec). by split_and!.
  - destruct ctx as [[d m]|]; [|done]. simpl in Hwf.
    destruct Hrep as (Hd & Hm & Hadd & Hdel & Hrec). simpl in Hd, Hm.
    pose proof (manifest_line_status st l s p w Hclass) as Hstep.
    rewrite (bind_ret_nil _ _ _ _ (getitem_run _ _ _ w Hd)) in Hstep.
    rewrite (bind_ret_nil _ _ _ _ (getitem_run _ _ _ w Hm)) in Hstep.
    simpl in Hstep. unfold status_of.
    destruct (decide (s = "A")) as [->|HA]; [|destruct (decide (s = "D")) as [->|HD]].
    + rewrite (bind_ret_nil _ _ _ _ Hstep).
      lazymatch goal with
      | |- context [for_fold ls manifest_line ?s w] =>
          destruct (IH s (Some (d, m)) (evs ++ [Change p Added d m]))
            as (st' & Hrun & Hrep'); [|done|]
      end.
      { split_and!; simpl; [done|done| | |].
        - apply (dd_append_held (added st) Added evs (Change p Added d m) eq_refl Hadd).
        - by apply (held_unchanged (deleted st) Deleted evs (Change p Added d m)).
        - by rewrite fmap_app, Hrec. }
      exists st'. split; [done|]. by rewrite <-(assoc_L (++)) in Hrep'.
    + rewrite (bind_ret_nil _ _ _ _ Hstep).
      lazymatch goal with
      | |- context [for_fold ls manifest_line ?s w] =>
          destruct (IH s (Some (d, m)) (evs ++ [Change p Deleted d m]))
            as (st' & Hrun & Hrep'); [|done|]
      end.
      { split_and!; simpl; [done|done| | |].
        - by apply (held_unchanged (added st) Added evs (Change p Deleted d m)).
        - apply (dd_append_held (deleted st) Deleted evs (Change p Deleted d m) eq_refl Hdel).
        - by rewrite fmap_app, Hrec. }
      exists st'. split; [done|]. by rewrite <-(assoc_L (++)) in Hrep'.
    + rewrite (bind_ret_nil _ _ _ _ Hstep).
      apply (IH _ (Some (d, m)) evs); [|done]. by split_and!.
  - rewrite (bind_ret_nil _ _ _ _ (manifest_line_other st l w Hclass)).
    by apply IH.
Qed.

Lemma initial_state_represents : represents initial_state None [].
Proof. by split_and!. Qed.

(** On a well-formed stream the loop ends with the events of the stream. *)
Lemma parse_events w lines :
  well_formed lines = true →
  ∃ st, for_fold lines manifest_line initial_state w = ([], inr st) ∧
        represents st (context_after None lines) (events lines).
Proof.
  intros Hwf.
  apply (parse_run w lines initial_state None [] initial_state_represents Hwf).
Qed.

(** *** The document *)

Lemma annotations_run f label (d : gmap string (list string)) k p evs w :
  d !! p = held (entry_of <$> changes k p evs) →
  annotations f label d p w =
    ((λ e, Write f (label +:+ entry_of e +:+ Py.nl)) <$> changes k p evs, inr tt).
Proof.
  intros Hd. unfold annotations. rewrite Hd.
  remember (entry_of <$> changes k p evs) as es eqn:Hes.
  destruct es as [|x l].
  - symmetry in Hes. apply fmap_nil_inv in Hes. by rewrite Hes.
  - change (held (x :: l)) with (Some (x :: l)). cbv beta iota.
    rewrite (for__ok _ _ (λ entry, [Write f (label +:+ entry +:+ Py.nl)])) by done.
    rewrite concat_fmap_singleton, Hes. by rewrite <-list_fmap_compose.
Qed.

Lemma current_file_run f st ctx evs p w :
  represents st ctx evs →
  current_file f st p w = (current_block f evs p, inr tt).
Proof.
  intros (_ & _ & Hadd & _ & _). unfold current_file, current_block.
  rewrite write_bind.
  by rewrite (bind_ok _ _ _ _ _ (annotations_run f _ _ Added p evs w (Hadd p))).
Qed.

Lemma history_file_run f st ctx evs p w :
  represents st ctx evs →
  history_file f st p w = (history_block f evs p, inr tt).
Proof.
  intros (_ & _ & Hadd & Hdel & _). unfold history_file, history_block.
  rewrite write_bind.
  rewrite (bind_ok _ _ _ _ _ (annotations_run f _ _ Added p evs w (Hadd p))).
  by rewrite (bind_ok _ _ _ _ _ (annotations_run f _ _ Deleted p evs w (Hdel p))).
Qed.

Lemma held_is_Some {V} (l : list V) : is_Some (held l) ↔ l ≠ [].
Proof. destruct l; simpl; [|by split]. split; [by intros [? ?]|done]. Qed.

Lemma changes_nonempty k p evs :
  entry_of <$> changes k p evs ≠ [] ↔ ∃ e, e ∈ evs ∧ status e = k ∧ path e = p.
Proof.
  split.
  - destruct (changes k p evs) as [|e l] eqn:Hl; [done|]. intros _.
    assert (e ∈ changes k p evs) as Hin by (rewrite Hl; left).
    apply list_elem_of_filter in Hin as [[? ?] ?]. eauto.
  - intros (e & Hin & Hk & Hp) Hnil. apply fmap_nil_inv in Hnil.
    assert (e ∈ changes k p evs) as Hmem by (by apply list_elem_of_filter).
    rewrite Hnil in Hmem. by apply elem_of_nil in Hmem.
Qed.

Lemma elem_of_changed_paths evs p :
  p ∈ changed_paths evs ↔ ∃ e, e ∈ evs ∧ path e = p.
Proof.
  unfold changed_paths, set_of.
  rewrite elem_of_sorted, elem_of_elements, elem_of_list_to_set, list_elem_of_fmap.
  naive_solver.
Qed.

(** The keys of the two histories are the paths of the events. *)
Lemma all_paths_events st ctx evs :
  represents st ctx evs → all_paths st = changed_paths evs.
Proof.
  intros (_ & _ & Hadd & Hdel & _). unfold all_paths, changed_paths. do 2 f_equal.
  apply set_eq. intros p. unfold set_of.
  rewrite !elem_of_list_to_set, elem_of_app, !elem_of_keys, !elem_of_dom.
  rewrite Hadd, Hdel, !held_is_Some, !changes_nonempty, list_elem_of_fmap.
  split.
  - intros [(e & ? & _ & ?)|(e & ? & _ & ?)]; eauto.
  - intros (e & -> & Hin). destruct (status e) eqn:Hk; [left|right]; eauto.
Qed.

(** The whole run of [build_manifest] on a well-formed stream. *)
Lemma build_manifest_run w out listing :
  w name_status_cmd = Exited 0 out →
  w ls_tree_cmd = Exited 0 listing →
  well_formed (Py.splitlines out) = true →
  build_manifest w =
    (manifest_front "MANIFEST.md" (events (Py.splitlines out)) (Py.splitlines listing) ++
     file_history_title "MANIFEST.md" ::
     concat (history_block "MANIFEST.md" (events (Py.splitlines out)) <$>
             changed_paths (events (Py.splitlines out))) ++
     manifest_tail "MANIFEST.md", inr tt).
Proof.
  intros Hlog Htree Hwf.
  destruct (parse_events w _ Hwf) as (st & Hparse & Hrep).
  set (evs := events (Py.splitlines out)) in *. set (f := "MANIFEST.md").
  unfold build_manifest.
  rewrite (bind_ok _ _ w [Exec name_status_cmd] out)
    by (unfold check_output; by rewrite Hlog).
  rewrite (bind_ret_nil _ _ _ _ Hparse).
  assert (∀ k : string → M unit, ∀ t, k f w = (t, inr tt) →
          (with_open f k ≫= λ _, print "✅ MANIFEST.md updated.") w =
            (Open f :: t ++ manifest_tail f, inr tt)) as Hwith.
  { intros k t Hk. erewrite bind_ok by (by rewrite with_open_run, Hk).
    simpl. by rewrite <-(assoc_L (++)). }
  erewrite Hwith; cycle 1.
  { rewrite !write_bind.
    rewrite (bind_ok _ _ w [Exec ls_tree_cmd] listing)
      by (unfold check_output; by rewrite Htree).
    erewrite (bind_ok (for_ _ _)).
    2:{ apply (for__ok _ _ (current_block f evs)).
        intros p _. apply (current_file_run f st _ evs p w Hrep). }
    rewrite write_bind.
    pose proof Hrep as (_ & _ & _ & _ & Hrec). rewrite Hrec, <-fmap_take.
    erewrite (bind_ok (for_ _ _)).
    2:{ rewrite for__fmap.
        by apply (for__ok _ _ (λ e, [Write f ("- " +:+ recent_line e +:+ Py.nl)])). }
    rewrite !write_bind.
    rewrite (all_paths_events st _ evs Hrep).
    rewrite (for__ok _ _ (history_block f evs))
      by (intros p _; apply (history_file_run f st _ evs p w Hrep)).
    simpl. reflexivity. }
  unfold manifest_front. simpl. rewrite concat_fmap_singleton.
  do 6 f_equal. rewrite <-!(assoc_L (++)). simpl. by rewrite <-!(assoc_L (++)).
Qed.

(** C6: the last section of the manifest has one block per path that
    some Added or Deleted event of the log names: each such path once, no
    other path, in strictly ascending order; the block of a path lists its
    Added events, then its Deleted events, so a path that was only ever
    deleted has Deleted annotations alone. *)
Theorem full_file_history_paths (w : World) (out listing : string) :
  w name_status_cmd = Exited 0 out →
  w ls_tree_cmd = Exited 0 listing →
  well_formed (Py.splitlines out) = true →
  let f := "MANIFEST.md" in
  let evs := events (Py.splitlines out) in
  let paths := changed_paths evs in
  build_manifest w =
    (manifest_front f evs (Py.splitlines listing) ++
     file_history_title f :: concat (history_block f evs <$> paths) ++
     manifest_tail f, inr tt) ∧
  (∀ p, p ∈ paths ↔ ∃ e, e ∈ evs ∧ path e = p) ∧
  NoDup paths ∧
  StronglySorted strictly_before paths ∧
  (∀ p, history_block f evs p =
          Write f ("📄 " +:+ p +:+ Py.nl) ::
          ((λ e, Write f ("  Added: " +:+ entry_of e +:+ Py.nl)) <$>
             filter (λ e, status e = Added ∧ path e = p) evs) ++
          ((λ e, Write f ("  Deleted: " +:+ entry_of e +:+ Py.nl)) <$>
             filter (λ e, status e = Deleted ∧ path e = p) evs) ++
          [Write f Py.nl]) ∧
  (∀ p, (∀ e, e ∈ evs → path e = p → status e = Deleted) →
        history_block f evs p =
          Write f ("📄 " +:+ p +:+ Py.nl) ::
          (annotation f Deleted <$> changes Deleted p evs) ++ [Write f Py.nl]).
Proof.
  intros Hlog Htree Hwf f evs paths.
  assert (NoDup paths) as Hnd.
  { unfold paths, changed_paths, Py.sorted.
    rewrite merge_sort_Permutation. apply NoDup_elements. }
  split_and!.
  - by apply build_manifest_run.
  - intros p. apply elem_of_changed_paths.
  - done.
  - unfold paths, changed_paths. apply sorted_strict, NoDup_elements.
  - done.
  - intros p Honly. unfold history_block.
    assert (changes Added p evs = []) as ->; [|done].
    destruct (changes Added p evs) as [|e l] eqn:Hl; [done|].
    assert (e ∈ changes Added p evs) as Hin by (rewrite Hl; left).
    apply list_elem_of_filter in Hin as [[Hk Hp] Hin].
    specialize (Honly e Hin Hp). congruence.
Qed.

Lemma full_file_history_paths_witness :
  changed_paths (events sample_log) =
    ["README.md"; "legacy.cfg"; "old.txt"; "src/new.py"] ∧
  StronglySorted strictly_before (changed_paths (events sample_log)) ∧
  history_block "MANIFEST.md" (events sample_log) "legacy.cfg" =
    [Write "MANIFEST.md" ("📄 legacy.cfg" +:+ Py.nl);
     Write "MANIFEST.md" ("  Deleted: 2024-03-03 — remove old" +:+ Py.nl);
     Write "MANIFEST.md" Py.nl].
Proof.
  split; [by vm_compute|].
  pose proof (full_file_history_paths manifest_world
                (unlines sample_log) (unlines ["src/new.py"; "README.md"])
                eq_refl eq_refl ltac:(by vm_compute)) as H.
  cbv zeta in H. destruct H as (_ & _ & _ & Hsorted & _ & Honly).
  replace (Py.splitlines (unlines sample_log)) with sample_log in *
    by (by vm_compute).
  split; [done|].
  rewrite (Honly "legacy.cfg"); [by vm_compute|].
  intros e He Hp. vm_compute in He.
  repeat (apply elem_of_cons in He as [->|He]; [by vm_compute in Hp|]).
  by apply elem_of_nil in He.
Defined.

(** *** A status line with no header before it *)

Lemma lstrip_whitespace_app ws p : whitespace ws → Py.lstrip (ws +:+ p) = Py.lstrip p.
Proof.
  unfold whitespace. induction ws as [|c ws IH]; [done|].
  rewrite app_String. simpl. destruct (Py.isspace c); [done|discriminate].
Qed.

Lemma word_whitespace_app ws p :
  ws ≠ "" → whitespace ws → Py.word (ws +:+ p) = ("", ws +:+ p).
Proof.
  unfold whitespace. destruct ws as [|c ws]; [done|]. intros _.
  rewrite app_String. simpl. destruct (Py.isspace c); [done|discriminate].
Qed.

Lemma split_ws1_status s ws p :
  s = "A" ∨ s = "D" → ws ≠ "" → whitespace ws → p ≠ "" → Py.lstrip p = p →
  Py.split_ws1 (s +:+ ws +:+ p) = [s; p].
Proof.
  intros Hs Hws Hspace Hp Hstrip. unfold Py.split_ws1.
  destruct Hs as [-> | ->]; rewrite app_String, app_empty_l; simpl;
    rewrite (word_whitespace_app ws p Hws Hspace);
    rewrite (lstrip_whitespace_app ws p Hspace), Hstrip;
    by destruct p.
Qed.

Lemma classify_status_prefixed line :
  status_prefixed line → delimiter_free line →
  ∃ s p, classify line = StatusLine s p.
Proof.
  intros (s & ws & p & -> & Hs & Hws & Hspace & Hp & Hstrip) Hfree.
  exists s, p. unfold classify. rewrite Hfree.
  rewrite (split_ws1_status s ws p) by done.
  by destruct Hs as [-> | ->]; rewrite app_String; simpl; rewrite startswith_empty.
Qed.

Lemma classify_sets_context line d m : classify line = HeaderLine d m → sets_context line.
Proof. intros Hclass. by exists d, m. Qed.

(** Until a header is seen the loop has no date to offer. *)
Lemma headless_loop w pre :
  ∀ st, current_commit st !! "date" = None →
        Forall (λ l, ¬ sets_context l) pre →
        (∃ st', for_fold pre manifest_line st w = ([], inr st') ∧
                current_commit st' !! "date" = None) ∨
        (∃ e, for_fold pre manifest_line st w = ([], inl e) ∧
              (e = KeyError "date" ∨ e = ValueError)).
Proof.
  induction pre as [|l pre IH]; intros st Hnone Hpre; [left; eauto|].
  apply Forall_cons in Hpre as [Hl Hpre]. simpl.
  destruct (classify l) as [d m|s p| |] eqn:Hclass.
  - destruct Hl. by eapply classify_sets_context.
  - right. exists (KeyError "date"). split; [|by left].
    by rewrite (bind_raise _ _ _ _ _
                  (manifest_line_status_no_context st l s p w Hclass Hnone)).
  - right. exists ValueError. split; [|by right].
    by rewrite (bind_raise _ _ _ _ _ (manifest_line_broken st l w Hclass)).
  - rewrite (bind_ret_nil _ _ _ _ (manifest_line_other st l w Hclass)).
    by apply IH.
Qed.

(** C7, as the code has it: a status-prefixed line without the field
    delimiter that comes before any header has set the commit context makes
    [build_manifest] raise (the missing date, or the unpacking error of an
    earlier status line cut short) while still parsing: the only effect of
    the run is the log query, MANIFEST.md is neither opened nor written, and
    the exit status is 1. *)
Theorem headless_status_line_aborts (w : World) (out : string)
    (pre : list string) (line : string) (post : list string) :
  w name_status_cmd = Exited 0 out →
  Py.splitlines out = pre ++ line :: post →
  Forall (λ l, ¬ sets_context l) pre →
  status_prefixed line →
  delimiter_free line →
  ∃ e, (e = KeyError "date" ∨ e = ValueError) ∧
       build_manifest w = ([Exec name_status_cmd], inl e) ∧
       exit_status (build_manifest w).2 = 1%Z ∧
       Forall (λ ev, touches_file ev = false) (build_manifest w).1 ∧
       ∀ fs, fs_after fs (build_manifest w).1 = fs.
Proof.
  intros Hlog Hlines Hpre Hline Hfree.
  assert (∃ e, (e = KeyError "date" ∨ e = ValueError) ∧
               for_fold (pre ++ line :: post) manifest_line initial_state w =
                 ([], inl e)) as (e & He & Hloop).
  { rewrite for_fold_app.
    destruct (headless_loop w pre initial_state eq_refl Hpre)
      as [(st' & Hrun & Hnone)|(e & Hrun & He)].
    - exists (KeyError "date"). split; [by left|].
      rewrite (bind_ret_nil _ _ _ _ Hrun). simpl.
      destruct (classify_status_prefixed line Hline Hfree) as (s & p & Hclass).
      by rewrite (bind_raise _ _ _ _ _
                    (manifest_line_status_no_context st' line s p w Hclass Hnone)).
    - exists e. split; [done|]. by rewrite (bind_raise _ _ _ _ _ Hrun). }
  assert (build_manifest w = ([Exec name_status_cmd], inl e)) as Hrun.
  { unfold build_manifest.
    rewrite (bind_ok _ _ w [Exec name_status_cmd] out)
      by (unfold check_output; by rewrite Hlog).
    rewrite Hlines. by rewrite (bind_raise _ _ _ _ _ Hloop). }
  exists e. rewrite Hrun. split_and!; [done|done| | |].
  - by destruct He as [-> | ->].
  - by apply Forall_singleton.
  - intros fs. apply fs_after_untouched. by apply Forall_singleton.
Qed.

Lemma headless_status_line_aborts_witness :
  ∃ e, (e = KeyError "date" ∨ e = ValueError) ∧
       build_manifest headless_world = ([Exec name_status_cmd], inl e) ∧
       exit_status (build_manifest headless_world).2 = 1%Z ∧
       Forall (λ ev, touches_file ev = false) (build_manifest headless_world).1 ∧
       ∀ fs, fs_after fs (build_manifest headless_world).1 = fs.
Proof.
  apply (headless_status_line_aborts headless_world
           (unlines [""; "A" +:+ tab +:+ "a.txt"; "c3|2024-03-03|later"])
           [""] ("A" +:+ tab +:+ "a.txt") ["c3|2024-03-03|later"] eq_refl).
  - by vm_compute.
  - apply Forall_singleton. intros (d & m & Hclass). by vm_compute in Hclass.
  - exists "A", tab, "a.txt". by split_and!; [| left | | | |].
  - by vm_compute.
Defined.

(** C7 as stated fails for a path that holds the delimiter: the line
    [A<TAB>a|b] is status-prefixed and no header precedes it, yet it is taken
    for a header candidate and passed over; the run completes with status 0
    and MANIFEST.md is opened and written. *)
Lemma delimiter_path_not_rejected :
  status_prefixed delimiter_path_line ∧
  Py.splitlines (unlines [delimiter_path_line]) = [] ++ delimiter_path_line :: [] ∧
  Forall (λ l, ¬ sets_context l) [] ∧
  build_manifest delimiter_path_world =
    ([Exec name_status_cmd; Open "MANIFEST.md";
      Write "MANIFEST.md" ("# MANIFEST" +:+ Py.nl +:+ Py.nl);
      Write "MANIFEST.md" ("## Current Files" +:+ Py.nl +:+ Py.nl);
      Exec ls_tree_cmd;
      Write "MANIFEST.md" ("## Recent Changes (Last 5)" +:+ Py.nl +:+ Py.nl);
      Write "MANIFEST.md" Py.nl;
      Write "MANIFEST.md" ("## Full File History" +:+ Py.nl +:+ Py.nl);
      Close "MANIFEST.md"; Print "✅ MANIFEST.md updated."], inr tt) ∧
  exit_status (build_manifest delimiter_path_world).2 = 0%Z.
Proof.
  split_and!; try by vm_compute.
  exists "A", tab, "a|b". by split_and!; [| left | | | |].
Qed.

(** ** A failing query *)

Lemma check_output_failure cmd w :
  (∀ out, w cmd ≠ Exited 0 out) →
  ∃ e, check_output cmd w = ([Exec cmd], inl e) ∧
       (e = OSError cmd ∨ ∃ status, status ≠ 0%Z ∧ e = CalledProcessError status cmd).
Proof.
  intros Hfail. unfold check_output. destruct (w cmd) as [|status out] eqn:Hw.
  - eauto.
  - destruct (decide (status = 0%Z)) as [->|Hne]; [by destruct (Hfail out)|].
    eexists; split; [done|]. right. eauto.
Qed.

(** When the log query fails, [build_changelog] stops before it opens
    the changelog. *)
Lemma build_changelog_query_failure w :
  (∀ out, w log_cmd ≠ Exited 0 out) →
  ∃ e, build_changelog w = ([Exec log_cmd], inl e) ∧ exit_status (@inl exn unit e) = 1%Z.
Proof.
  intros Hfail. destruct (check_output_failure _ _ Hfail) as (e & Hrun & He).
  exists e. split.
  - unfold build_changelog, get_commits.
    by rewrite (bind_raise _ _ w [Exec log_cmd] e)
      by (by rewrite (bind_raise _ _ w [Exec log_cmd] e)).
  - by destruct He as [->|(? & _ & ->)].
Qed.

(** When the extended log query fails, [build_manifest] stops before it
    opens the manifest. *)
Lemma build_manifest_log_failure w :
  (∀ out, w name_status_cmd ≠ Exited 0 out) →
  ∃ e, build_manifest w = ([Exec name_status_cmd], inl e) ∧
       exit_status (@inl exn unit e) = 1%Z.
Proof.
  intros Hfail. destruct (check_output_failure _ _ Hfail) as (e & Hrun & He).
  exists e. split.
  - unfold build_manifest. by rewrite (bind_raise _ _ w [Exec name_status_cmd] e).
  - by destruct He as [->|(? & _ & ->)].
Qed.

(** X5: When the tree listing fails after a well-formed log, the manifest has
    been opened and holds its first two writes. *)
Lemma build_manifest_tree_failure w out :
  w name_status_cmd = Exited 0 out →
  well_formed (Py.splitlines out) = true →
  (∀ listing, w ls_tree_cmd ≠ Exited 0 listing) →
  ∃ e, build_manifest w =
         ([Exec name_status_cmd; Open "MANIFEST.md";
           Write "MANIFEST.md" ("# MANIFEST" +:+ Py.nl +:+ Py.nl);
           Write "MANIFEST.md" ("## Current Files" +:+ Py.nl +:+ Py.nl);
           Exec ls_tree_cmd; Close "MANIFEST.md"], inl e) ∧
       exit_status (@inl exn unit e) = 1%Z ∧
       ∀ fs, fs_after fs (build_manifest w).1 !! "MANIFEST.md" =
               Some ("# MANIFEST" +:+ Py.nl +:+ Py.nl +:+
                     "## Current Files" +:+ Py.nl +:+ Py.nl).
Proof.
  intros Hlog Hwf Hfail.
  destruct (parse_events w _ Hwf) as (st & Hparse & _).
  destruct (check_output_failure _ _ Hfail) as (e & Htree & He).
  assert (build_manifest w =
    ([Exec name_status_cmd; Open "MANIFEST.md";
      Write "MANIFEST.md" ("# MANIFEST" +:+ Py.nl +:+ Py.nl);
      Write "MANIFEST.md" ("## Current Files" +:+ Py.nl +:+ Py.nl);
      Exec ls_tree_cmd; Close "MANIFEST.md"], inl e)) as Hrun.
  { unfold build_manifest.
    rewrite (bind_ok _ _ w [Exec name_status_cmd] out)
      by (unfold check_output; by rewrite Hlog).
    rewrite (bind_ret_nil _ _ _ _ Hparse).
    erewrite bind_raise; [done|]. rewrite with_open_run, !write_bind.
    by rewrite (bind_raise _ _ _ _ _ Htree). }
  exists e. rewrite Hrun. split_and!; [done| |].
  - by destruct He as [->|(? & _ & ->)].
  - intros fs. unfold fs_after. simpl.
    rewrite lookup_insert_eq. simpl. rewrite lookup_insert_eq.
    simpl. by rewrite lookup_insert_eq.
Qed.

(** C1, at the tree listing: [build_manifest] has opened MANIFEST.md and
    written the title and the first section header when it asks git for the
    tree; when that query exits with a non-zero status the run ends with
    status 1 and the manifest on disk holds just those two writes instead of
    the report that was there. The log queries of both operations, by
    contrast, come before the file is opened. *)
Theorem manifest_truncated_when_tree_listing_fails :
  build_manifest tree_listing_fails =
    ([Exec name_status_cmd; Open "MANIFEST.md";
      Write "MANIFEST.md" ("# MANIFEST" +:+ Py.nl +:+ Py.nl);
      Write "MANIFEST.md" ("## Current Files" +:+ Py.nl +:+ Py.nl);
      Exec ls_tree_cmd; Close "MANIFEST.md"],
     inl (CalledProcessError 128 ls_tree_cmd)) ∧
  exit_status (build_manifest tree_listing_fails).2 = 1%Z ∧
  fs_after {[ "MANIFEST.md" := "the report of an earlier run" ]}
           (build_manifest tree_listing_fails).1 !! "MANIFEST.md" =
    Some ("# MANIFEST" +:+ Py.nl +:+ Py.nl +:+ "## Current Files" +:+ Py.nl +:+ Py.nl).
Proof. split_and!; by vm_compute. Qed.

(** ** What the History Reader returns *)

Lemma splitlines_String c s :
  Py.splitlines (String c s) =
    if Py.islinebreak c then
      match s with
      | String c' _ =>
          if decide (c = "013"%char ∧ c' = "010"%char) then Py.splitlines s
          else "" :: Py.splitlines s
      | "" => "" :: Py.splitlines s
      end
    else match Py.splitlines s with
         | l :: ls => String c l :: ls
         | [] => [String c ""]
         end.
Proof.
  destruct c as [[] [] [] [] [] [] [] []]; try reflexivity;
    destruct s as [|[[] [] [] [] [] [] [] []] s]; reflexivity.
Qed.

Lemma splitlines_break_free s : Forall break_free (Py.splitlines s).
Proof.
  induction s as [|c s IH]; [constructor|]. rewrite splitlines_String.
  destruct (Py.islinebreak c) eqn:Hc.
  - destruct s as [|c' s']; [by repeat constructor|].
    destruct (decide _); [done|]. by constructor.
  - destruct (Py.splitlines s) as [|l ls].
    + repeat constructor. unfold break_free. simpl. by rewrite Hc.
    + apply Forall_cons in IH as [Hl Hls]. constructor; [|done].
      unfold break_free in *. simpl. by rewrite Hc, Hl.
Qed.

Lemma all_chars_lstrip P s : all_chars P s = true → all_chars P (Py.lstrip s) = true.
Proof.
  induction s as [|c s IH]; [done|]. simpl.
  intros [Hc Hs]%andb_true_iff. destruct (Py.isspace c); [auto|].
  simpl. by rewrite Hc, Hs.
Qed.

Lemma rstrip_String c s :
  Py.rstrip (String c s) =
    match Py.rstrip s with
    | "" => if Py.isspace c then "" else String c ""
    | r => String c r
    end.
Proof. done. Qed.

Lemma all_chars_rstrip P s : all_chars P s = true → all_chars P (Py.rstrip s) = true.
Proof.
  induction s as [|c s IH]; [done|]. rewrite rstrip_String. simpl.
  intros [Hc Hs]%andb_true_iff. specialize (IH Hs).
  destruct (Py.rstrip s) as [|a r].
  - destruct (Py.isspace c); [done|]. simpl. by rewrite Hc.
  - simpl in *. by rewrite Hc, IH.
Qed.

Lemma lstrip_head s : no_leading_space (Py.lstrip s).
Proof.
  induction s as [|c s IH]; [by intros ? ? ?|]. simpl.
  destruct (Py.isspace c) eqn:Hc; [done|]. intros c' t [= <- _]. done.
Qed.

Lemma rstrip_head s : no_leading_space s → no_leading_space (Py.rstrip s).
Proof.
  destruct s as [|c s]; [done|]. intros Hs c' t. rewrite rstrip_String.
  specialize (Hs c s eq_refl).
  destruct (Py.rstrip s); rewrite ?Hs; by intros [= <- _].
Qed.

Lemma rstrip_last s : no_trailing_space (Py.rstrip s).
Proof.
  induction s as [|a s IH]; intros t c.
  - by destruct t.
  - rewrite rstrip_String. destruct (Py.rstrip s) as [|b r] eqn:Hr.
    + destruct (Py.isspace a) eqn:Ha; [by destruct t|].
      destruct t as [|a' [|]]; rewrite ?app_String; intros [=]; by subst.
    + destruct t as [|a' t]; rewrite ?app_String.
      * by intros [=].
      * intros [= <- Heq]. by eapply IH.
Qed.

(** X1: The lines [get_commits] hands out carry no line break and neither
    begin nor end with whitespace. *)
Theorem get_commits_lines_trimmed (w : World) (out : string) :
  w log_cmd = Exited 0 out →
  ∃ lines, get_commits w = ([Exec log_cmd], inr lines) ∧
           Forall (λ l, break_free l ∧ no_leading_space l ∧ no_trailing_space l) lines.
Proof.
  intros Hw. exists (Py.strip <$> Py.splitlines out).
  split; [by apply get_commits_run|].
  apply Forall_fmap. eapply Forall_impl; [apply splitlines_break_free|].
  intros l Hl. simpl. unfold Py.strip. split_and!.
  - by apply all_chars_rstrip, all_chars_lstrip.
  - apply rstrip_head, lstrip_head.
  - apply rstrip_last.
Qed.

Lemma get_commits_lines_trimmed_witness :
  ∃ lines, get_commits ragged_world = ([Exec log_cmd], inr lines) ∧
           Forall (λ l, break_free l ∧ no_leading_space l ∧ no_trailing_space l) lines.
Proof. apply (get_commits_lines_trimmed ragged_world _ eq_refl). Defined.

Lemma splitlines_line l : break_free l → l ≠ "" → Py.splitlines l = [l].
Proof.
  unfold break_free. induction l as [|c l IH]; [done|].
  intros Hcl _. simpl in Hcl. apply andb_true_iff in Hcl as [Hc Hl].
  apply negb_true_iff in Hc.
  rewrite splitlines_String, Hc. destruct l as [|c' l']; [done|].
  by rewrite IH.
Qed.

Lemma splitlines_line_feed s : Py.splitlines (Py.nl +:+ s) = "" :: Py.splitlines s.
Proof.
  unfold Py.nl. rewrite app_String, app_empty_l, splitlines_String. simpl.
  by destruct s.
Qed.

Lemma splitlines_first l s :
  break_free l → Py.splitlines (l +:+ Py.nl +:+ s) = l :: Py.splitlines s.
Proof.
  unfold break_free. induction l as [|c l IH]; intros Hcl.
  - by rewrite app_empty_l, splitlines_line_feed.
  - simpl in Hcl. apply andb_true_iff in Hcl as [Hc Hl].
    apply negb_true_iff in Hc.
    by rewrite app_String, splitlines_String, Hc, IH.
Qed.

Lemma splitlines_join_lines ls :
  Forall break_free ls → last ls ≠ Some "" →
  Py.splitlines (join_lines ls) = ls.
Proof.
  induction ls as [|l ls IH]; [done|]. intros [Hl Hls]%Forall_cons Hlast.
  destruct ls as [|l' ls'].
  - simpl in *. apply splitlines_line; [done|]. by intros ->.
  - change (join_lines (l :: l' :: ls')) with (l +:+ Py.nl +:+ join_lines (l' :: ls')).
    rewrite splitlines_first by done. f_equal. apply IH; [done|].
    by rewrite last_cons_cons in Hlast.
Qed.

Lemma strip_trimmed l : no_leading_space l → no_trailing_space l → Py.strip l = l.
Proof.
  intros Hlead Htrail. unfold Py.strip.
  assert (Py.lstrip l = l) as ->.
  { destruct l as [|c t]; [done|]. simpl. by rewrite (Hlead c t eq_refl). }
  clear Hlead. induction l as [|c l IH]; [done|]. rewrite rstrip_String.
  destruct l as [|c' l'].
  - simpl. by rewrite (Htrail "" c eq_refl).
  - rewrite IH; [done|]. intros t a Heq. apply (Htrail (String c t) a).
    by rewrite app_String, Heq.
Qed.

(** X2: Round trip through the History Reader: when git prints one commit
    line per commit, joined by line feeds, the white space of the lines is
    ASCII (the range in which [Py.strip] and [Py.splitlines] follow Python),
    and no line holds a line break or has white space at either end,
    [get_commits] returns exactly those lines, in the order printed. *)
Theorem get_commits_round_trip (w : World) (ls : list string) :
  w log_cmd = Exited 0 (join_lines ls) →
  Forall ascii_spaced ls →
  Forall (λ l, break_free l ∧ no_leading_space l ∧ no_trailing_space l) ls →
  last ls ≠ Some "" →
  get_commits w = ([Exec log_cmd], inr ls).
Proof.
  intros Hw _ Hls Hlast. rewrite (get_commits_run w _ Hw).
  rewrite splitlines_join_lines; [|by eapply Forall_impl; [done|intros ? [? _]]|done].
  do 2 f_equal. rewrite <-(list_fmap_id ls) at 2. apply Forall_fmap_ext_1.
  eapply Forall_impl; [done|]. intros l (_ & ? & ?). by apply strip_trimmed.
Qed.

Lemma trimmed_of_strip l :
  Py.strip l = l → no_leading_space l ∧ no_trailing_space l.
Proof.
  intros <-. unfold Py.strip. split.
  - apply rstrip_head, lstrip_head.
  - apply rstrip_last.
Qed.

Lemma get_commits_round_trip_witness :
  get_commits (world (Exited 0 (join_lines (log_line <$> busy_history)))
                     NotStarted NotStarted) =
    ([Exec log_cmd], inr (log_line <$> busy_history)).
Proof.
  apply (get_commits_round_trip
           (world (Exited 0 (join_lines (log_line <$> busy_history)))
                  NotStarted NotStarted) (log_line <$> busy_history) eq_refl).
  - repeat (apply Forall_cons; split; [repeat constructor|]). constructor.
  - repeat (apply Forall_cons; split;
              [split; [by vm_compute|by apply trimmed_of_strip; vm_compute]|]).
    constructor.
  - by vm_compute.
Defined.

(** ** Failures of the log query *)

(** X3: When the plain log query cannot be run or exits with a non-zero
    status, the changelog and the WIP gate both stop right there: the query
    is the only effect of the run (nothing printed, CHANGELOG.md not opened),
    the exception is the one [check_output] raised and the exit status is 1. *)
Theorem log_failure_stops_changelog_and_gate (w : World) :
  (∀ out, w log_cmd ≠ Exited 0 out) →
  ∃ e, (e = OSError log_cmd ∨
        ∃ status, status ≠ 0%Z ∧ e = CalledProcessError status log_cmd) ∧
       build_changelog w = ([Exec log_cmd], inl e) ∧
       check_wip w = ([Exec log_cmd], inl e) ∧
       exit_status (build_changelog w).2 = 1%Z ∧
       exit_status (check_wip w).2 = 1%Z.
Proof.
  intros Hfail. destruct (check_output_failure _ _ Hfail) as (e & Hrun & He).
  assert (get_commits w = ([Exec log_cmd], inl e)) as Hget.
  { unfold get_commits. by rewrite (bind_raise _ _ _ _ _ Hrun). }
  assert (build_changelog w = ([Exec log_cmd], inl e)) as Hlog.
  { unfold build_changelog. by rewrite (bind_raise _ _ _ _ _ Hget). }
  assert (check_wip w = ([Exec log_cmd], inl e)) as Hwip.
  { unfold check_wip. by rewrite (bind_raise _ _ _ _ _ Hget). }
  exists e. rewrite Hlog, Hwip. split_and!; [done..| |];
    by destruct He as [->|(? & _ & ->)].
Qed.

Lemma log_failure_stops_changelog_and_gate_witness :
  ∃ e, (e = OSError log_cmd ∨
        ∃ status, status ≠ 0%Z ∧ e = CalledProcessError status log_cmd) ∧
       build_changelog no_git = ([Exec log_cmd], inl e) ∧
       check_wip no_git = ([Exec log_cmd], inl e) ∧
       exit_status (build_changelog no_git).2 = 1%Z ∧
       exit_status (check_wip no_git).2 = 1%Z.
Proof. apply (log_failure_stops_changelog_and_gate no_git). by intros out. Defined.

(** X4: When the extended log query fails, [build_manifest] stops before it
    opens MANIFEST.md and before it asks for the tree: the query is the only
    effect, the exit status is 1 and the disk is as it was. *)
Theorem extended_log_failure_stops_manifest (w : World) :
  (∀ out, w name_status_cmd ≠ Exited 0 out) →
  ∃ e, (e = OSError name_status_cmd ∨
        ∃ status, status ≠ 0%Z ∧ e = CalledProcessError status name_status_cmd) ∧
       build_manifest w = ([Exec name_status_cmd], inl e) ∧
       exit_status (build_manifest w).2 = 1%Z ∧
       ∀ fs, fs_after fs (build_manifest w).1 = fs.
Proof.
  intros Hfail. destruct (check_output_failure _ _ Hfail) as (e & Hrun & He).
  assert (build_manifest w = ([Exec name_status_cmd], inl e)) as Hlog.
  { unfold build_manifest. by rewrite (bind_raise _ _ _ _ _ Hrun). }
  exists e. rewrite Hlog. split_and!; [done..| |done].
  by destruct He as [->|(? & _ & ->)].
Qed.

Lemma extended_log_failure_stops_manifest_witness :
  ∃ e, (e = OSError name_status_cmd ∨
        ∃ status, status ≠ 0%Z ∧ e = CalledProcessError status name_status_cmd) ∧
       build_manifest no_git = ([Exec name_status_cmd], inl e) ∧
       exit_status (build_manifest no_git).2 = 1%Z ∧
       ∀ fs, fs_after fs (build_manifest no_git).1 = fs.
Proof. apply (extended_log_failure_stops_manifest no_git). by intros out. Defined.

Lemma build_manifest_tree_failure_witness :
  ∃ e, build_manifest tree_listing_fails =
         ([Exec name_status_cmd; Open "MANIFEST.md";
           Write "MANIFEST.md" ("# MANIFEST" +:+ Py.nl +:+ Py.nl);
           Write "MANIFEST.md" ("## Current Files" +:+ Py.nl +:+ Py.nl);
           Exec ls_tree_cmd; Close "MANIFEST.md"], inl e) ∧
       exit_status (@inl exn unit e) = 1%Z ∧
       ∀ fs, fs_after fs (build_manifest tree_listing_fails).1 !! "MANIFEST.md" =
               Some ("# MANIFEST" +:+ Py.nl +:+ Py.nl +:+
                     "## Current Files" +:+ Py.nl +:+ Py.nl).
Proof.
  apply (build_manifest_tree_failure tree_listing_fails
           (unlines ["c0ffee|2024-03-01|init"; "A" +:+ tab +:+ "a.txt"]) eq_refl).
  - by vm_compute.
  - intros listing. by vm_compute.
Defined.

(** ** Commit lines with too few fields *)

Lemma unpack4_short l w : length l ≠ 4 → unpack4 l w = ([], inl ValueError).
Proof. by destruct l as [|? [|? [|? [|? [|]]]]]. Qed.

(** X6: A commit line with fewer than three delimiters stops the changelog
    in its grouping loop, after the file was opened: the run ends with
    ValueError and exit status 1, and CHANGELOG.md holds the title alone. *)
Theorem short_line_truncates_changelog (w : World) (out : string)
    (pre : list CommitRecord) (bad : string) (rest : list string) :
  w log_cmd = Exited 0 out →
  Py.strip <$> Py.splitlines out = (log_line <$> pre) ++ bad :: rest →
  Forall delimited pre →
  length (Py.split "|" 3 bad) ≠ 4 →
  build_changelog w =
    ([Exec log_cmd; Open "CHANGELOG.md";
      Write "CHANGELOG.md" ("# CHANGELOG" +:+ Py.nl +:+ Py.nl);
      Close "CHANGELOG.md"], inl ValueError) ∧
  exit_status (build_changelog w).2 = 1%Z ∧
  ∀ fs, fs_after fs (build_changelog w).1 !! "CHANGELOG.md" =
          Some ("# CHANGELOG" +:+ Py.nl +:+ Py.nl).
Proof.
  intros Hw Hlines Hpre Hbad.
  assert (build_changelog w =
    ([Exec log_cmd; Open "CHANGELOG.md";
      Write "CHANGELOG.md" ("# CHANGELOG" +:+ Py.nl +:+ Py.nl);
      Close "CHANGELOG.md"], inl ValueError)) as Hrun.
  { assert (for_fold ((log_line <$> pre) ++ bad :: rest) group_line ∅ w =
              ([], inl ValueError)) as Hloop.
    { rewrite for_fold_app, (bind_ret_nil _ _ _ _ (grouping_run pre ∅ w Hpre)).
      simpl. apply bind_raise. unfold group_line.
      by rewrite (bind_raise _ _ _ _ _ (unpack4_short _ w Hbad)). }
    unfold build_changelog.
    rewrite (bind_ok _ _ _ _ _ (get_commits_run w out Hw)), Hlines.
    rewrite (bind_raise _ _ w
               [Open "CHANGELOG.md";
                Write "CHANGELOG.md" ("# CHANGELOG" +:+ Py.nl +:+ Py.nl);
                Close "CHANGELOG.md"] ValueError); [done|].
    rewrite with_open_run, write_bind.
    by rewrite (bind_raise _ _ _ _ _ Hloop). }
  rewrite Hrun. split_and!; [done..|].
  intros fs. unfold fs_after. simpl. rewrite lookup_insert_eq. simpl.
  by rewrite lookup_insert_eq.
Qed.

Lemma short_line_truncates_changelog_witness :
  build_changelog truncated_log_world =
    ([Exec log_cmd; Open "CHANGELOG.md";
      Write "CHANGELOG.md" ("# CHANGELOG" +:+ Py.nl +:+ Py.nl);
      Close "CHANGELOG.md"], inl ValueError) ∧
  exit_status (build_changelog truncated_log_world).2 = 1%Z ∧
  ∀ fs, fs_after fs (build_changelog truncated_log_world).1 !! "CHANGELOG.md" =
          Some ("# CHANGELOG" +:+ Py.nl +:+ Py.nl).
Proof.
  apply (short_line_truncates_changelog truncated_log_world _
           [Commit "a1f0" "2024-03-02" "ann" "fix bug"] "b2e1|2024-03-02|bob"
           ["c3d2|2024-03-01|ann|WIP: later"] eq_refl).
  - by vm_compute.
  - repeat constructor.
  - by vm_compute.
Defined.

(** X7: The WIP gate stops with ValueError at a commit line with fewer than
    three delimiters, if no earlier subject has the marker: it prints
    nothing, exits with status 1, and does not look at the later commits. *)
Theorem short_line_stops_gate (w : World) (out : string)
    (pre : list CommitRecord) (bad : string) (rest : list string) :
  w log_cmd = Exited 0 out →
  Py.strip <$> Py.splitlines out = (log_line <$> pre) ++ bad :: rest →
  Forall delimited pre →
  Forall (λ r, ¬ mentions_wip (subject r)) pre →
  length (Py.split "|" 3 bad) ≠ 4 →
  check_wip w = ([Exec log_cmd], inl ValueError) ∧
  exit_status (check_wip w).2 = 1%Z.
Proof.
  intros Hw Hlines Hdel Hno Hbad.
  assert (check_wip w = ([Exec log_cmd], inl ValueError)) as Hrun.
  { unfold check_wip.
    rewrite (bind_ok _ _ _ _ _ (get_commits_run w out Hw)), Hlines.
    erewrite (bind_raise (for_ _ _)).
    2:{ apply (for__raise _ _ _ _ (λ _, [])).
        - intros y (r & -> & Hr)%list_elem_of_fmap.
          rewrite Forall_forall in Hdel, Hno.
          rewrite check_wip_line_run by auto.
          apply Hno, not_mentions_wip_iff in Hr. by rewrite Hr.
        - unfold check_wip_line.
          by rewrite (bind_raise _ _ _ _ _ (unpack4_short _ w Hbad)). }
    by rewrite concat_fmap_nil. }
  by rewrite Hrun.
Qed.

Lemma short_line_stops_gate_witness :
  check_wip truncated_log_world = ([Exec log_cmd], inl ValueError) ∧
  exit_status (check_wip truncated_log_world).2 = 1%Z.
Proof.
  apply (short_line_stops_gate truncated_log_world _
           [Commit "a1f0" "2024-03-02" "ann" "fix bug"] "b2e1|2024-03-02|bob"
           ["c3d2|2024-03-01|ann|WIP: later"] eq_refl).
  - by vm_compute.
  - repeat constructor.
  - constructor; [|constructor]. apply not_mentions_wip_iff. by vm_compute.
  - by vm_compute.
Defined.

(** ** The first two sections of the manifest *)

Lemma build_manifest_sections w out listing :
  w name_status_cmd = Exited 0 out →
  w ls_tree_cmd = Exited 0 listing →
  well_formed (Py.splitlines out) = true →
  let f := "MANIFEST.md" in
  let evs := events (Py.splitlines out) in
  build_manifest w =
    ([Exec name_status_cmd; Open f;
      Write f ("# MANIFEST" +:+ Py.nl +:+ Py.nl);
      Write f ("## Current Files" +:+ Py.nl +:+ Py.nl);
      Exec ls_tree_cmd] ++
     concat (current_block f evs <$> Py.sorted (Py.splitlines listing)) ++
     Write f ("## Recent Changes (Last 5)" +:+ Py.nl +:+ Py.nl) ::
     ((λ e, Write f ("- " +:+ recent_line e +:+ Py.nl)) <$> take RECENT_LIMIT evs) ++
     Write f Py.nl :: file_history_title f ::
     concat (history_block f evs <$> changed_paths evs) ++ manifest_tail f, inr tt).
Proof.
  intros Hlog Htree Hwf f evs.
  rewrite (build_manifest_run w out listing Hlog Htree Hwf).
  unfold manifest_front. fold f evs. f_equal. simpl.
  rewrite <-!(assoc_L (++)). simpl. by rewrite <-!(assoc_L (++)).
Qed.

(** X8: The "Current Files" section lists the paths of the tree listing, all
    of them and as often as the listing has them, in ascending order; under
    each path come its Added events and nothing else, so a tracked path that
    the log never shows as added stands alone. *)
Theorem current_files_section (w : World) (out listing : string) :
  w name_status_cmd = Exited 0 out →
  w ls_tree_cmd = Exited 0 listing →
  well_formed (Py.splitlines out) = true →
  let f := "MANIFEST.md" in
  let evs := events (Py.splitlines out) in
  let files := Py.sorted (Py.splitlines listing) in
  build_manifest w =
    ([Exec name_status_cmd; Open f;
      Write f ("# MANIFEST" +:+ Py.nl +:+ Py.nl);
      Write f ("## Current Files" +:+ Py.nl +:+ Py.nl);
      Exec ls_tree_cmd] ++
     concat (current_block f evs <$> files) ++
     Write f ("## Recent Changes (Last 5)" +:+ Py.nl +:+ Py.nl) ::
     ((λ e, Write f ("- " +:+ recent_line e +:+ Py.nl)) <$> take RECENT_LIMIT evs) ++
     Write f Py.nl :: file_history_title f ::
     concat (history_block f evs <$> changed_paths evs) ++ manifest_tail f, inr tt) ∧
  files ≡ₚ Py.splitlines listing ∧
  StronglySorted String.le files ∧
  (∀ p, current_block f evs p =
          Write f ("📄 " +:+ p +:+ Py.nl) ::
          ((λ e, Write f ("  Added: " +:+ entry_of e +:+ Py.nl)) <$>
             filter (λ e, status e = Added ∧ path e = p) evs) ++
          [Write f Py.nl]) ∧
  (∀ p, (∀ e, e ∈ evs → path e = p → status e = Deleted) →
        current_block f evs p =
          [Write f ("📄 " +:+ p +:+ Py.nl); Write f Py.nl]).
Proof.
  intros Hlog Htree Hwf f evs files. split_and!.
  - by apply build_manifest_sections.
  - apply merge_sort_Permutation.
  - apply StronglySorted_merge_sort; apply _.
  - done.
  - intros p Honly. unfold current_block.
    destruct (changes Added p evs) as [|e l] eqn:Hl; [done|].
    assert (e ∈ changes Added p evs) as Hin by (rewrite Hl; left).
    apply list_elem_of_filter in Hin as [[Hk Hp] Hin].
    specialize (Honly e Hin Hp). congruence.
Qed.

Lemma current_files_section_witness :
  Py.sorted (Py.splitlines (unlines ["src/new.py"; "README.md"])) =
    ["README.md"; "src/new.py"] ∧
  StronglySorted String.le
    (Py.sorted (Py.splitlines (unlines ["src/new.py"; "README.md"]))) ∧
  current_block "MANIFEST.md" (events sample_log) "README.md" =
    [Write "MANIFEST.md" ("📄 README.md" +:+ Py.nl);
     Write "MANIFEST.md" ("  Added: 2024-03-01 — init" +:+ Py.nl);
     Write "MANIFEST.md" Py.nl].
Proof.
  split; [by vm_compute|].
  pose proof (current_files_section manifest_world
                (unlines sample_log) (unlines ["src/new.py"; "README.md"])
                eq_refl eq_refl ltac:(by vm_compute)) as H.
  cbv zeta in H. destruct H as (_ & _ & Hsorted & Hblock & _).
  split; [done|].
  replace (Py.splitlines (unlines sample_log)) with sample_log in Hblock
    by (by vm_compute).
  rewrite Hblock. by vm_compute.
Defined.

(** X9: The "Recent Changes" section holds one line
    [- date — Added|Deleted path — "subject"] for each of the first five file
    events of the log, in log order: [min 5 n] lines for [n] events. *)
Theorem recent_changes_section (w : World) (out listing : string) :
  w name_status_cmd = Exited 0 out →
  w ls_tree_cmd = Exited 0 listing →
  well_formed (Py.splitlines out) = true →
  let f := "MANIFEST.md" in
  let evs := events (Py.splitlines out) in
  let recent :=
    (λ e, Write f ("- " +:+
                   (change_date e +:+ " — " +:+ verb (status e) +:+ " " +:+
                    path e +:+ " — " +:+ dquote +:+ change_subject e +:+ dquote) +:+
                   Py.nl)) <$> take RECENT_LIMIT evs in
  build_manifest w =
    ([Exec name_status_cmd; Open f;
      Write f ("# MANIFEST" +:+ Py.nl +:+ Py.nl);
      Write f ("## Current Files" +:+ Py.nl +:+ Py.nl);
      Exec ls_tree_cmd] ++
     concat (current_block f evs <$> Py.sorted (Py.splitlines listing)) ++
     Write f ("## Recent Changes (Last 5)" +:+ Py.nl +:+ Py.nl) ::
     recent ++
     Write f Py.nl :: file_history_title f ::
     concat (history_block f evs <$> changed_paths evs) ++ manifest_tail f, inr tt) ∧
  length recent = Nat.min 5 (length evs) ∧
  (∀ i e, i < 5 → evs !! i = Some e →
          recent !! i = Some (Write f ("- " +:+ recent_line e +:+ Py.nl))).
Proof.
  intros Hlog Htree Hwf f evs recent.
  split_and!.
  - by apply build_manifest_sections.
  - unfold recent. by rewrite length_fmap, length_take.
  - intros i e Hi He. unfold recent.
    by rewrite list_lookup_fmap, lookup_take_lt, He by done.
Qed.

Lemma recent_changes_section_witness :
  take RECENT_LIMIT (events sample_log) =
    [Change "old.txt" Deleted "2024-03-03" "remove old";
     Change "legacy.cfg" Deleted "2024-03-03" "remove old";
     Change "src/new.py" Added "2024-03-02" "add a|b support";
     Change "old.txt" Added "2024-03-01" "init";
     Change "README.md" Added "2024-03-01" "init"] ∧
  let f := "MANIFEST.md" in
  let recent :=
    (λ e, Write f ("- " +:+
                   (change_date e +:+ " — " +:+ verb (status e) +:+ " " +:+
                    path e +:+ " — " +:+ dquote +:+ change_subject e +:+ dquote) +:+
                   Py.nl)) <$> take RECENT_LIMIT (events sample_log) in
  length recent = Nat.min 5 (length (events sample_log)).
Proof.
  split; [by vm_compute|].
  pose proof (recent_changes_section manifest_world
                (unlines sample_log) (unlines ["src/new.py"; "README.md"])
                eq_refl eq_refl ltac:(by vm_compute)) as H.
  cbv zeta in H. destruct H as (_ & Hlen & _).
  replace (Py.splitlines (unlines sample_log)) with sample_log in Hlen
    by (by vm_compute).
  exact Hlen.
Defined.

(** ** Streams the parser does not get through *)

Lemma manifest_line_represents w st ctx evs l :
  represents st ctx evs →
  well_formed_from (has_header ctx) [l] = true →
  ∃ st', manifest_line st l w = ([], inr st') ∧
         represents st' (context_after ctx [l]) (evs ++ events_from ctx [l]).
Proof.
  intros Hrep Hwf.
  destruct (parse_run w [l] st ctx evs Hrep Hwf) as (st' & Hrun & Hrep').
  exists st'. split; [|done]. simpl in Hrun. rewrite bind_run in Hrun.
  destruct (manifest_line st l w) as [t [e|s]]; simpl in Hrun; [done|].
  unfold ret in Hrun. simpl in Hrun. rewrite (right_id_L [] (++)) in Hrun.
  by simplify_eq.
Qed.

Lemma parse_abort w lines :
  ∀ st ctx evs,
    represents st ctx evs →
    well_formed_from (has_header ctx) lines = false →
    ∃ e, (e = KeyError "date" ∨ e = ValueError) ∧
         for_fold lines manifest_line st w = ([], inl e).
Proof.
  induction lines as [|l ls IH]; intros st ctx evs Hrep Hwf; [done|].
  pose proof (manifest_line_represents w st ctx evs l Hrep) as Hstep.
  simpl in *. destruct (classify l) as [d m|s p| |] eqn:Hclass.
  - destruct (Hstep eq_refl) as (st' & Hrun & Hrep').
    rewrite (bind_ret_nil _ _ _ _ Hrun). by eapply (IH st' (Some (d, m))).
  - destruct ctx as [[d m]|]; simpl in *.
    + destruct (Hstep eq_refl) as (st' & Hrun & Hrep').
      rewrite (bind_ret_nil _ _ _ _ Hrun). by eapply (IH st' (Some (d, m))).
    + exists (KeyError "date"). split; [by left|].
      destruct Hrep as (Hd & _).
      by rewrite (bind_raise _ _ _ _ _
                    (manifest_line_status_no_context st l s p w Hclass Hd)).
  - exists ValueError. split; [by right|].
    by rewrite (bind_raise _ _ _ _ _ (manifest_line_broken st l w Hclass)).
  - rewrite (bind_ret_nil _ _ _ _ (manifest_line_other st l w Hclass)).
    by eapply IH.
Qed.

(** X10: Whenever the extended log is one the parser does not get through (an
    [A]/[D] line with no path, or one that comes before any header),
    [build_manifest] ends in the parsing loop with ValueError or with the
    KeyError of the missing date: the log query is the only effect, the tree
    is never listed, MANIFEST.md is not opened, and the exit status is 1. *)
Theorem malformed_stream_aborts (w : World) (out : string) :
  w name_status_cmd = Exited 0 out →
  well_formed (Py.splitlines out) = false →
  ∃ e, (e = KeyError "date" ∨ e = ValueError) ∧
       build_manifest w = ([Exec name_status_cmd], inl e) ∧
       exit_status (build_manifest w).2 = 1%Z ∧
       ∀ fs, fs_after fs (build_manifest w).1 = fs.
Proof.
  intros Hlog Hwf.
  destruct (parse_abort w _ initial_state None [] initial_state_represents Hwf)
    as (e & He & Hloop).
  assert (build_manifest w = ([Exec name_status_cmd], inl e)) as Hrun.
  { unfold build_manifest.
    rewrite (bind_ok _ _ w [Exec name_status_cmd] out)
      by (unfold check_output; by rewrite Hlog).
    by rewrite (bind_raise _ _ _ _ _ Hloop). }
  exists e. rewrite Hrun. split_and!; [done..| |done].
  by destruct He as [-> | ->].
Qed.

Lemma malformed_stream_aborts_witness :
  ∃ e, (e = KeyError "date" ∨ e = ValueError) ∧
       build_manifest pathless_world = ([Exec name_status_cmd], inl e) ∧
       exit_status (build_manifest pathless_world).2 = 1%Z ∧
       ∀ fs, fs_after fs (build_manifest pathless_world).1 = fs.
Proof.
  apply (malformed_stream_aborts pathless_world
           (unlines ["c3|2024-03-03|later"; "A"]) eq_refl).
  by vm_compute.
Defined.

(** ** What a run touches *)

Lemma with_open_trace_Forall {A} (P : event → Prop) f (body : string → M A) w :
  P (Open f) → P (Close f) → Forall P (body f w).1 → Forall P (with_open f body w).1.
Proof.
  intros Hopen Hclose Hbody. rewrite with_open_run. simpl.
  constructor; [done|]. apply Forall_app. split; [done|]. by apply Forall_singleton.
Qed.

Lemma for_fold_trace_Forall {A S} (P : event → Prop) (l : list A)
    (body : S → A → M S) s w :
  (∀ s x, Forall P (body s x w).1) → Forall P (for_fold l body s w).1.
Proof.
  intros Hbody. revert s. induction l as [|x l IH]; intros s; simpl; [constructor|].
  apply bind_trace_Forall; auto.
Qed.

Lemma check_output_trace cmd w : (check_output cmd w).1 = [Exec cmd].
Proof. done. Qed.

Lemma get_commits_trace w : (get_commits w).1 = [Exec log_cmd].
Proof.
  unfold get_commits. rewrite bind_run, check_output_trace.
  by destruct (check_output log_cmd w).2.
Qed.

Lemma group_line_trace g line w : (group_line g line w).1 = [].
Proof.
  unfold group_line. rewrite bind_run, unpack4_trace.
  by destruct (unpack4 _ w).2 as [|[[[? ?] ?] ?]].
Qed.

Lemma manifest_line_trace st line w : (manifest_line st line w).1 = [].
Proof.
  unfold manifest_line. destruct (Py.contains "|" line).
  { by destruct (Py.split "|" 2 (Py.strip line)) as [|? [|? [|? [|]]]]. }
  destruct (_ || _); [|done].
  destruct (Py.split_ws1 line) as [|s [|p [|]]]; try done.
  rewrite (bind_ret_nil _ _ _ (s, p)) by done.
  unfold getitem.
  destruct (current_commit st !! "date") as [d|]; [|done].
  rewrite (bind_ret_nil _ _ _ d) by done.
  destruct (current_commit st !! "msg") as [m|]; [|done].
  rewrite (bind_ret_nil _ _ _ m) by done.
  by repeat case_decide.
Qed.

Section block.
Variables (f : string) (cmds : list (list string)) (w : World).

Lemma write_block text : Forall (block_effect f cmds) (write f text w).1.
Proof. apply Forall_singleton. left. eauto. Qed.

Lemma summary_line_block line : Forall (block_effect f cmds) (summary_line f line w).1.
Proof.
  unfold summary_line. apply bind_trace_Forall.
  - rewrite unpack4_trace. constructor.
  - intros [[[? ?] ?] ?]. apply write_block.
Qed.

Lemma history_section_block g d :
  Forall (block_effect f cmds) (history_section f g d w).1.
Proof.
  unfold history_section.
  apply bind_trace_Forall; [apply write_block|intros _].
  apply bind_trace_Forall; [|intros _; apply write_block].
  apply for__trace_Forall. intros [? ?]. apply write_block.
Qed.

Lemma annotations_block label d p :
  Forall (block_effect f cmds) (annotations f label d p w).1.
Proof.
  unfold annotations. destruct (d !! p); [|constructor].
  apply for__trace_Forall. intros ?. apply write_block.
Qed.

Lemma current_file_block st p : Forall (block_effect f cmds) (current_file f st p w).1.
Proof.
  unfold current_file.
  apply bind_trace_Forall; [apply write_block|intros _].
  apply bind_trace_Forall; [apply annotations_block|intros _; apply write_block].
Qed.

Lemma history_file_block st p : Forall (block_effect f cmds) (history_file f st p w).1.
Proof.
  unfold history_file.
  apply bind_trace_Forall; [apply write_block|intros _].
  apply bind_trace_Forall; [apply annotations_block|intros _].
  apply bind_trace_Forall; [apply annotations_block|intros _; apply write_block].
Qed.
End block.

Lemma block_effect_appends f cmds e : block_effect f cmds e → appends_to f e.
Proof. by intros [[text ->]|(cmd & _ & ->)]. Qed.

Lemma block_effect_within f cmds cmds' e :
  cmds ⊆ cmds' → block_effect f cmds e → within f cmds' e.
Proof. intros Hsub [[text ->]|(cmd & Hcmd & ->)]; simpl; auto. Qed.

Lemma written_untouched t : Forall (λ e, touches_file e = false) t → written t = "".
Proof. induction 1 as [|e t He _ IH]; [done|]. by destruct e. Qed.

Lemma written_app t1 t2 : written (t1 ++ t2) = written t1 +:+ written t2.
Proof.
  induction t1 as [|e t1 IH]; [done|]. destruct e; simpl; try done.
  by rewrite IH, append_assoc.
Qed.

Lemma fs_after_app fs t1 t2 : fs_after fs (t1 ++ t2) = fs_after (fs_after fs t1) t2.
Proof. apply foldl_app. Qed.

(** Once [f] holds [c], effects that only add to [f] leave in it [c]
    followed by what they wrote. *)
Lemma fs_after_appends f tb :
  Forall (appends_to f) tb →
  ∀ c fs, fs_after (<[f := c]> fs) tb = <[f := c +:+ written tb]> fs.
Proof.
  induction 1 as [|e tb He _ IH]; intros c fs.
  - simpl. by rewrite append_empty_r.
  - destruct e as [cmd|p|p text|p|text]; simpl in *; try done; try apply IH.
    subst p. rewrite lookup_insert_eq. simpl. rewrite insert_insert_eq.
    unfold fs_after in IH. by rewrite IH, append_assoc.
Qed.

Lemma overwrites_fs f t :
  overwrites f t →
  (∀ fs, Open f ∈ t → fs_after fs t = <[f := written t]> fs) ∧
  (∀ fs, Open f ∉ t → fs_after fs t = fs) ∧
  (∀ fs, fs_after (fs_after fs t) t = fs_after fs t).
Proof.
  intros [Hnone|(pre & tb & -> & Hpre & Htb)].
  - split_and!.
    + intros fs Hin. rewrite Forall_forall in Hnone. by apply Hnone in Hin.
    + intros fs _. by apply fs_after_untouched.
    + intros fs. by rewrite !fs_after_untouched.
  - assert (∀ fs, fs_after fs (pre ++ Open f :: tb) =
                  <[f := written (pre ++ Open f :: tb)]> fs) as Hfs.
    { intros fs. rewrite fs_after_app, (fs_after_untouched _ _ Hpre).
      rewrite written_app, (written_untouched _ Hpre).
      change (fs_after fs (Open f :: tb)) with (fs_after (<[f := ""]> fs) tb).
      by rewrite fs_after_appends. }
    split_and!.
    + intros fs _. apply Hfs.
    + intros fs Hnot. destruct Hnot. apply elem_of_app. right. left.
    + intros fs. by rewrite !Hfs, insert_insert_eq.
Qed.

Lemma with_open_then_print f (body : string → M unit) msg cmds w :
  Forall (block_effect f cmds) (body f w).1 →
  ∃ tb, ((with_open f body ≫= λ _, print msg) w).1 = Open f :: tb ∧
        Forall (appends_to f) tb ∧
        ∀ cmds', cmds ⊆ cmds' → Forall (within f cmds') tb.
Proof.
  intros Hbody. rewrite bind_run, with_open_run. simpl.
  assert (Forall (appends_to f) (body f w).1) as Happ.
  { eapply Forall_impl; [exact Hbody|].
    intros e He. exact (block_effect_appends f cmds e He). }
  assert (∀ cmds', cmds ⊆ cmds' → Forall (within f cmds') (body f w).1) as Hwithin.
  { intros cmds' Hsub. eapply Forall_impl; [exact Hbody|].
    intros e He. exact (block_effect_within f cmds cmds' e Hsub He). }
  destruct (body f w).2 as [e|[]]; simpl; eexists; (split; [done|]); split.
  - apply Forall_app. split; [done|]. by apply Forall_singleton.
  - intros cmds' Hsub. apply Forall_app. split; [auto|]. by apply Forall_singleton.
  - rewrite !Forall_app. split_and!; [done|by apply Forall_singleton..].
  - intros cmds' Hsub. rewrite !Forall_app.
    split_and!; [auto|by apply Forall_singleton..].
Qed.

(** X11: Whatever git answers, [build_changelog] runs no command but the log
    query and touches no file but CHANGELOG.md. If it gets as far as opening
    the file, the file ends up holding exactly what the run wrote, whatever
    it held before, and every other file is as it was; otherwise the disk is
    unchanged. Running it again in the same world changes nothing more. *)
Theorem changelog_on_disk (w : World) :
  let f := "CHANGELOG.md" in
  let t := (build_changelog w).1 in
  Forall (within f [log_cmd]) t ∧
  (∀ fs, Open f ∈ t → fs_after fs t = <[f := written t]> fs) ∧
  (∀ fs, Open f ∉ t → fs_after fs t = fs) ∧
  (∀ fs, fs_after (fs_after fs t) t = fs_after fs t).
Proof.
  intros f t.
  assert (Forall (within f [log_cmd]) t ∧ overwrites f t) as [Hwithin Hover].
  { unfold t, build_changelog. rewrite bind_run, get_commits_trace.
    destruct (get_commits w).2 as [e|commits]; simpl.
    { split; [apply Forall_singleton; set_solver|]. left. by apply Forall_singleton. }
    edestruct (with_open_then_print f) with (cmds := @nil (list string))
      as (tb & -> & Happ & Hwithin).
    2:{ split.
        - apply Forall_cons. split; [simpl; set_solver|].
          apply Forall_cons. split; [done|]. apply Hwithin. set_solver.
        - right. exists [Exec log_cmd], tb. split_and!; [done| |done].
          by apply Forall_singleton. }
    apply bind_trace_Forall; [apply write_block|intros _].
    apply bind_trace_Forall.
    { apply for_fold_trace_Forall. intros g line. rewrite group_line_trace.
      constructor. }
    intros grouped.
    apply bind_trace_Forall; [apply write_block|intros _].
    apply bind_trace_Forall.
    { apply for__trace_Forall. intros line. apply summary_line_block. }
    intros _. apply bind_trace_Forall; [apply write_block|intros _].
    apply for__trace_Forall. intros d. apply history_section_block. }
  split; [done|]. by apply overwrites_fs.
Qed.

Lemma parse_loop_trace lines st w : (for_fold lines manifest_line st w).1 = [].
Proof.
  assert (Forall (λ _, False) (for_fold lines manifest_line st w).1) as Hnone.
  { apply for_fold_trace_Forall. intros s x. rewrite manifest_line_trace.
    constructor. }
  destruct (for_fold lines manifest_line st w).1 as [|e t]; [done|].
  by apply Forall_cons in Hnone as [[] _].
Qed.

(** X12: Whatever git answers, [build_manifest] runs no command but its two
    queries and touches no file but MANIFEST.md. If it gets as far as opening
    the file, the file ends up holding exactly what the run wrote, whatever
    it held before, and every other file is as it was; otherwise the disk is
    unchanged. Running it again in the same world changes nothing more. *)
Theorem manifest_on_disk (w : World) :
  let f := "MANIFEST.md" in
  let t := (build_manifest w).1 in
  Forall (within f [name_status_cmd; ls_tree_cmd]) t ∧
  (∀ fs, Open f ∈ t → fs_after fs t = <[f := written t]> fs) ∧
  (∀ fs, Open f ∉ t → fs_after fs t = fs) ∧
  (∀ fs, fs_after (fs_after fs t) t = fs_after fs t).
Proof.
  intros f t.
  assert (Forall (within f [name_status_cmd; ls_tree_cmd]) t ∧ overwrites f t)
    as [Hwithin Hover].
  { unfold t, build_manifest. rewrite bind_run, check_output_trace.
    destruct (check_output name_status_cmd w).2 as [e|out]; simpl.
    { split; [apply Forall_singleton; simpl; set_solver|].
      left. by apply Forall_singleton. }
    rewrite bind_run, parse_loop_trace.
    destruct (for_fold _ manifest_line initial_state w).2 as [e|st]; simpl.
    { split; [apply Forall_singleton; simpl; set_solver|].
      left. by apply Forall_singleton. }
    edestruct (with_open_then_print f) with (cmds := [ls_tree_cmd])
      as (tb & -> & Happ & Hwithin).
    2:{ split.
        - apply Forall_cons. split; [simpl; set_solver|].
          apply Forall_cons. split; [done|]. apply Hwithin. set_solver.
        - right. exists [Exec name_status_cmd], tb. split_and!; [done| |done].
          by apply Forall_singleton. }
    apply bind_trace_Forall; [apply write_block|intros _].
    apply bind_trace_Forall; [apply write_block|intros _].
    apply bind_trace_Forall.
    { rewrite check_output_trace. apply Forall_singleton. right.
      exists ls_tree_cmd. split; [set_solver|done]. }
    intros listing. apply bind_trace_Forall.
    { apply for__trace_Forall. intros p. apply current_file_block. }
    intros _. apply bind_trace_Forall; [apply write_block|intros _].
    apply bind_trace_Forall.
    { apply for__trace_Forall. intros line. apply write_block. }
    intros _. apply bind_trace_Forall; [apply write_block|intros _].
    apply bind_trace_Forall; [apply write_block|intros _].
    apply for__trace_Forall. intros p. apply history_file_block. }
  split; [done|]. by apply overwrites_fs.
Qed.

(** ** How a run can end *)

Section outcomes.
Context (P : exn → Prop) (w : World).




End outcomes.













(** ** Headers and the lines under them *)

(** X14: A header line [hash|date|subject] of the extended log is cut at its
    first two delimiters only: whatever the loop's variables were, the
    current commit becomes exactly these three fields, the subject with any
    delimiters it holds, and the histories are left as they are. *)
Theorem header_sets_context (h d m : string) (st : parse_state) (w : World) :
  delimiter_free h → delimiter_free d →
  Py.strip (h +:+ "|" +:+ d +:+ "|" +:+ m) = h +:+ "|" +:+ d +:+ "|" +:+ m →
  manifest_line st (h +:+ "|" +:+ d +:+ "|" +:+ m) w =
    ([], inr (ParseState {[ "hash" := h; "date" := d; "msg" := m ]}
                         (added st) (deleted st) (recent_changes st))) ∧
  classify (h +:+ "|" +:+ d +:+ "|" +:+ m) = HeaderLine d m.
Proof.
  intros Hh Hd Hstrip.
  assert (Py.contains "|" (h +:+ "|" +:+ d +:+ "|" +:+ m) = true) as Hbar.
  { apply contains_iff. by exists h, (d +:+ "|" +:+ m). }
  unfold manifest_line, classify. rewrite Hbar, Hstrip.
  by rewrite !split_field, split_zero.
Qed.

Lemma header_sets_context_witness :
  manifest_line initial_state "b2|2024-03-02|add a|b support" no_git =
    ([], inr (ParseState {[ "hash" := "b2"; "date" := "2024-03-02";
                            "msg" := "add a|b support" ]} ∅ ∅ [])) ∧
  classify "b2|2024-03-02|add a|b support" = HeaderLine "2024-03-02" "add a|b support".
Proof.
  apply (header_sets_context "b2" "2024-03-02" "add a|b support" initial_state no_git);
    by vm_compute.
Defined.

Lemma events_from_app ctx l1 l2 :
  events_from ctx (l1 ++ l2) =
    events_from ctx l1 ++ events_from (context_after ctx l1) l2.
Proof.
  revert ctx. induction l1 as [|l l1 IH]; intros ctx; simpl; [done|].
  destruct (classify l) as [d m|s p| |]; try apply IH.
  destruct ctx as [[d m]|], (status_of s); simpl; by rewrite ?IH.
Qed.

Lemma context_after_app ctx l1 l2 :
  context_after ctx (l1 ++ l2) = context_after (context_after ctx l1) l2.
Proof.
  revert ctx. induction l1 as [|l l1 IH]; intros ctx; simpl; [done|].
  by destruct (classify l).
Qed.

Lemma context_after_headless ctx mid :
  Forall (λ l, ¬ sets_context l) mid → context_after ctx mid = ctx.
Proof.
  induction 1 as [|l mid Hl _ IH]; simpl; [done|].
  destruct (classify l) as [d m|s p| |] eqn:Hclass; try done.
  destruct Hl. by exists d, m.
Qed.

(** X15: A status line is stamped with the nearest header above it: right
    after the loop has taken an [A] or [D] line, the last entry of that
    path's history and the last recent change carry the date and subject of
    the last header before the line, whatever came before that header and
    whatever lines (no headers) lie between. *)
Theorem status_line_stamped (w : World) (pre : list string) (hdr : string)
    (mid : list string) (line : string) (d m word p : string) (k : change_status) :
  well_formed (pre ++ hdr :: mid ++ [line]) = true →
  classify hdr = HeaderLine d m →
  Forall (λ l, ¬ sets_context l) mid →
  classify line = StatusLine word p →
  status_of word = Some k →
  ∃ st, for_fold (pre ++ hdr :: mid ++ [line]) manifest_line initial_state w =
          ([], inr st) ∧
        last (dd_get (history_of k st) p) = Some (d +:+ " — " +:+ m) ∧
        last (recent_changes st) = Some (recent_line (Change p k d m)).
Proof.
  intros Hwf Hhdr Hmid Hline Hword.
  destruct (parse_events w _ Hwf) as (st & Hrun & Hrep). exists st.
  split; [done|].
  assert (∃ evs, events (pre ++ hdr :: mid ++ [line]) = evs ++ [Change p k d m])
    as [evs Hevs].
  { exists (events_from None (pre ++ hdr :: mid)). unfold events.
    replace (pre ++ hdr :: mid ++ [line]) with ((pre ++ hdr :: mid) ++ [line])
      by (by rewrite <-(assoc_L (++))).
    rewrite events_from_app. f_equal.
    rewrite context_after_app. simpl. rewrite Hhdr.
    rewrite (context_after_headless _ _ Hmid). simpl. by rewrite Hline, Hword. }
  rewrite Hevs in Hrep. destruct Hrep as (_ & _ & Hadd & Hdel & Hrec).
  split.
  - assert (history_of k st !! p = held (entry_of <$> changes k p (evs ++ [Change p k d m])))
      as Hk by (destruct k; [apply Hadd|apply Hdel]).
    rewrite (dd_get_held _ _ _ Hk), changes_snoc. simpl.
    rewrite decide_True by done. rewrite fmap_app. csimpl. by rewrite last_snoc.
  - rewrite Hrec, fmap_app. csimpl. by rewrite last_snoc.
Qed.

Lemma status_line_stamped_witness :
  ∃ st, for_fold (["c3|2024-03-03|remove old"; "D" +:+ tab +:+ "old.txt"] ++
                  "b2|2024-03-02|add a|b support" ::
                  ["M" +:+ tab +:+ "README.md"; ""] ++ ["A" +:+ tab +:+ "src/new.py"])
                 manifest_line initial_state no_git = ([], inr st) ∧
        last (dd_get (history_of Added st) "src/new.py") =
          Some ("2024-03-02" +:+ " — " +:+ "add a|b support") ∧
        last (recent_changes st) =
          Some (recent_line (Change "src/new.py" Added "2024-03-02" "add a|b support")).
Proof.
  apply (status_line_stamped no_git
           ["c3|2024-03-03|remove old"; "D" +:+ tab +:+ "old.txt"]
           "b2|2024-03-02|add a|b support"
           ["M" +:+ tab +:+ "README.md"; ""] ("A" +:+ tab +:+ "src/new.py")
           "2024-03-02" "add a|b support" "A" "src/new.py" Added);
    try (by vm_compute).
  repeat constructor; intros (d & m & Hclass); by vm_compute in Hclass.
Defined.

(** X16: Lines without the delimiter that begin with neither [A] nor [D]
    (blank lines, modifications, renames, copies) leave no trace: the
    parsing loop ends in the same state, or with the same exception, as on
    the stream without them, and they yield no event. *)
Theorem other_lines_leave_no_trace (lines : list string) (st : parse_state) (w : World) :
  for_fold (filter (λ l, looked_into l = true) lines) manifest_line st w =
    for_fold lines manifest_line st w ∧
  events (filter (λ l, looked_into l = true) lines) = events lines.
Proof.
  assert (∀ l, looked_into l ≠ true → classify l = OtherLine) as Hother.
  { intros l Hl. unfold looked_into in Hl. unfold classify.
    destruct (Py.contains "|" l); [done|]. simpl in *.
    by destruct (Py.startswith l "A" || Py.startswith l "D"). }
  split.
  - revert st. induction lines as [|l ls IH]; intros st; [done|].
    rewrite filter_cons. destruct (decide (looked_into l = true)) as [Hl|Hl]; simpl.
    + rewrite !bind_run. destruct (manifest_line st l w) as [t [e|st']]; simpl; [done|].
      by rewrite IH.
    + rewrite (bind_ret_nil _ _ _ _ (manifest_line_other st l w (Hother l Hl))).
      apply IH.
  - unfold events. generalize (@None (string * string)).
    induction lines as [|l ls IH]; intros ctx; [done|].
    rewrite filter_cons. destruct (decide (looked_into l = true)) as [Hl|Hl]; simpl.
    + destruct (classify l) as [d m|s p| |]; try apply IH.
      destruct ctx as [[d m]|], (status_of s); simpl; by rewrite ?IH.
    + by rewrite (Hother l Hl).
Qed.
